(** * PDF outline extractor: a shallow embedding of [pdf_utils] and [process_pdfs]

    The development follows the Python sources module by module:

    - [PyStr]    : Python [str] values (sequences of code points) and the
                   string methods the program calls;
    - [Re]       : a backtracking matcher with the priorities of Python's [re]
                   (greedy repetition, ordered alternation) and the compiled
                   [CLEANING_PATTERNS];
    - [Reader]   : [pdf_utils/reader.py];
    - [TextExtract] : [pdf_utils/text_extract.py];
    - [Pipeline] : [process_pdfs.py], [OutlineExtractor];
    - [Notions]  : the notions the properties are stated against (median by
                   rank, collapsed whitespace, ...);
    - [Samples]  : concrete documents and inputs.

    The properties follow the definitions.

    Python [float]s are idealised as rationals ([Q]); comparisons between
    floats are comparisons of the rationals, [==] on floats is [Qeq].
    [pdf_utils/heading_detect.py] is not among the sources: the heading
    detector is a parameter of the pipeline. *)

From Stdlib Require Import QArith Qround Qabs Qminmax ZArith NArith List String Ascii Bool Lia.
From stdpp Require Import gmap strings list.

Local Open Scope Z_scope.

(* ===================================================================== *)
(** ** Python strings *)
(* ===================================================================== *)

Module PyStr.

(** A character is a Unicode code point, a [str] a sequence of them. *)
Definition char := N.
Definition str := list char.

(** [py "abc"] is the [str] of an ASCII literal. *)
Definition py (s : string) : str :=
  map N_of_ascii (list_ascii_of_string s).

(** The part of the Unicode character database the program consults through
    [str.isalpha], [str.lower], and the [\d] and [\w] classes of [re].
    The tables themselves belong to the interpreter, not to this repository. *)
Class UnicodeData := {
  isalpha   : char -> bool;     (* str.isalpha on one character *)
  isdecimal : char -> bool;     (* category Nd: what [\d] matches *)
  isalnum   : char -> bool;     (* str.isalnum on one character *)
  lower     : str -> str        (* str.lower *)
}.

Definition in_range (lo hi c : N) : bool := ((lo <=? c) && (c <=? hi))%N.

(** The database restricted to ASCII: it agrees with CPython's on every
    [str] whose code points are all below 128. *)
Definition ascii_upper (c : char) : bool := in_range 65 90 c.
Definition ascii_lower (c : char) : bool := in_range 97 122 c.
Definition ascii_digit (c : char) : bool := in_range 48 57 c.

Definition ascii_data : UnicodeData := {|
  isalpha c := ascii_upper c || ascii_lower c;
  isdecimal c := ascii_digit c;
  isalnum c := ascii_upper c || ascii_lower c || ascii_digit c;
  lower s := map (fun c => if ascii_upper c then (c + 32)%N else c) s
|}.

(** [Py_UNICODE_ISSPACE]: the characters [str.strip()] removes and [\s]
    matches. *)
Definition isspace (c : char) : bool :=
  in_range 9 13 c || in_range 28 32 c
  || (c =? 133)%N || (c =? 160)%N || (c =? 5760)%N
  || in_range 8192 8202 c || (c =? 8232)%N || (c =? 8233)%N
  || (c =? 8239)%N || (c =? 8287)%N || (c =? 12288)%N.

(** [s.lstrip()], [s.rstrip()], [s.strip()]. *)
Fixpoint lstrip_by (p : char -> bool) (s : str) : str :=
  match s with
  | c :: s' => if p c then lstrip_by p s' else s
  | [] => []
  end.

Fixpoint rstrip_by (p : char -> bool) (s : str) : str :=
  match s with
  | c :: s' =>
      match rstrip_by p s' with
      | [] => if p c then [] else [c]
      | r => c :: r
      end
  | [] => []
  end.

Definition lstrip (s : str) : str := lstrip_by isspace s.
Definition rstrip (s : str) : str := rstrip_by isspace s.
Definition strip (s : str) : str := rstrip (lstrip s).

(** [s.rstrip(chars)]. *)
Definition rstrip_chars (chars : str) (s : str) : str :=
  rstrip_by (fun c => existsb (N.eqb c) chars) s.

(** [sep.join(parts)]. *)
Fixpoint join (sep : str) (parts : list str) : str :=
  match parts with
  | [] => []
  | [p] => p
  | p :: ps => p ++ sep ++ join sep ps
  end.

Definition str_eqb (a b : str) : bool := bool_decide (a = b).

(** [s.startswith(p)]. *)
Fixpoint startswith (p s : str) : bool :=
  match p, s with
  | [], _ => true
  | a :: p', b :: s' => (a =? b)%N && startswith p' s'
  | _ :: _, [] => false
  end.

(** [p in s] for strings. *)
Fixpoint contains (p s : str) : bool :=
  startswith p s ||
  match s with
  | [] => false
  | _ :: s' => contains p s'
  end.

(** [s.replace(old, new)] for a non-empty [old]: non-overlapping occurrences,
    left to right.  [skip] counts the characters of an occurrence that is
    being dropped. *)
Fixpoint replace_from (old new : str) (skip : nat) (s : str) : str :=
  match s with
  | [] => []
  | c :: s' =>
      match skip with
      | S k => replace_from old new k s'
      | O =>
          if startswith old s
          then new ++ replace_from old new (length old - 1)%nat s'
          else c :: replace_from old new 0 s'
      end
  end.

Definition replace (old new s : str) : str := replace_from old new 0 s.

(** Truthiness of a [str]. *)
Definition nonempty (s : str) : bool :=
  match s with [] => false | _ => true end.

Definition space : char := 32%N.

End PyStr.

Export PyStr.

(* ===================================================================== *)
(** ** Regular expressions with the priorities of Python's [re] *)
(* ===================================================================== *)

Module Re.

Section Engine.
Context `{UnicodeData}.

(** Pattern syntax: what the patterns of this program are built from. *)
Inductive regex :=
| Eps                               (* the empty pattern *)
| Cls (p : char -> bool)            (* one character of a class *)
| Seq (r1 r2 : regex)               (* r1 r2 *)
| Alt (r1 r2 : regex)               (* r1|r2, left alternative first *)
| Star (r : regex)                  (* r*, greedy *)
| Bol                               (* ^ *)
| Eol                               (* $ *)
| WordB.                            (* \b *)

Definition Plus (r : regex) : regex := Seq r (Star r).
Definition Opt (r : regex) : regex := Alt r Eps.
Definition cat (rs : list regex) : regex := foldr Seq Eps rs.

(** A position in the subject: the character just before it ([None] at the
    start of the string) and the text still ahead. *)
Definition cursor := (option char * str)%type.
Definition ahead (c : cursor) : str := snd c.

(** [\w]: alphanumeric or underscore. *)
Definition is_word (c : char) : bool := isalnum c || (c =? 95)%N.

Definition word_before (c : cursor) : bool :=
  match fst c with Some x => is_word x | None => false end.
Definition word_after (c : cursor) : bool :=
  match ahead c with x :: _ => is_word x | [] => false end.

(** [$] without MULTILINE: the end of the string, or just before a newline
    that ends the string. *)
Definition at_eol (c : cursor) : bool :=
  match ahead c with
  | [] => true
  | [x] => (x =? 10)%N
  | _ => false
  end.

(** Greedy iteration of [step].  Every round must consume a character, so
    the number of characters ahead bounds the number of rounds: [fuel] is
    always instantiated with that number. *)
Fixpoint star_loop (step : cursor -> list cursor) (fuel : nat) (c : cursor)
  : list cursor :=
  match fuel with
  | O => [c]
  | S f =>
      flat_map (fun c' =>
                  if (length (ahead c') <? length (ahead c))%nat
                  then star_loop step f c' else [])
               (step c)
      ++ [c]
  end.

(** All the ways [r] matches at [c], as the positions reached, in the order
    in which the backtracking matcher tries them.  The head of the list is
    the match [re] reports. *)
Fixpoint run (r : regex) (c : cursor) : list cursor :=
  match r with
  | Eps => [c]
  | Cls p =>
      match ahead c with
      | x :: s => if p x then [(Some x, s)] else []
      | [] => []
      end
  | Seq r1 r2 => flat_map (run r2) (run r1 c)
  | Alt r1 r2 => run r1 c ++ run r2 c
  | Star r1 => star_loop (run r1) (length (ahead c)) c
  | Bol => match fst c with None => [c] | Some _ => [] end
  | Eol => if at_eol c then [c] else []
  | WordB => if xorb (word_before c) (word_after c) then [c] else []
  end.

(** The match of [r] at a position: the position where it ends. *)
Definition match_at (r : regex) (c : cursor) : option cursor :=
  head (run r c).

(** [pattern.match(s)]: the text left after the match, if there is one. *)
Definition rmatch (r : regex) (s : str) : option str :=
  option_map ahead (match_at r (None, s)).

(** A match object as a truth value. *)
Definition matches (r : regex) (s : str) : bool :=
  match rmatch r s with Some _ => true | None => false end.

(** [pattern.search(s)] as a truth value: a match at some position. *)
Fixpoint search_from (r : regex) (prev : option char) (s : str) : bool :=
  match match_at r (prev, s) with
  | Some _ => true
  | None =>
      match s with
      | [] => false
      | x :: s' => search_from r (Some x) s'
      end
  end.

Definition search (r : regex) (s : str) : bool := search_from r None s.

(** [pattern.sub(repl, s)] for a pattern that matches no empty string (all
    the substituted patterns of this program are such): every match, left to
    right, is replaced by [repl].  [skip] counts the characters of the
    current match that remain to be dropped. *)
Fixpoint sub_from (r : regex) (repl : str) (skip : nat)
  (prev : option char) (s : str) : str :=
  match s with
  | [] => []
  | x :: s' =>
      match skip with
      | S k => sub_from r repl k (Some x) s'
      | O =>
          match match_at r (prev, s) with
          | Some c' =>
              let n := (length s - length (ahead c'))%nat in
              match n with
              | O => x :: sub_from r repl 0 (Some x) s'
              | S k => repl ++ sub_from r repl k (Some x) s'
              end
          | None => x :: sub_from r repl 0 (Some x) s'
          end
      end
  end.

Definition sub (r : regex) (repl s : str) : str := sub_from r repl 0 None s.

(** [pattern.findall(s)] for a pattern without groups that matches no empty
    string: the matched substrings, left to right. *)
Fixpoint findall_from (r : regex) (skip : nat) (prev : option char) (s : str)
  : list str :=
  match s with
  | [] => []
  | x :: s' =>
      match skip with
      | S k => findall_from r k (Some x) s'
      | O =>
          match match_at r (prev, s) with
          | Some c' =>
              let n := (length s - length (ahead c'))%nat in
              match n with
              | O => findall_from r 0 (Some x) s'
              | S k => take n s :: findall_from r k (Some x) s'
              end
          | None => findall_from r 0 (Some x) s'
          end
      end
  end.

Definition findall (r : regex) (s : str) : list str := findall_from r 0 None s.

(** *** Character classes *)

Definition lit (c : char) : regex := Cls (N.eqb c).
Definition one_of (cs : list char) : regex :=
  Cls (fun c => existsb (N.eqb c) cs).
Definition ws : regex := Cls isspace.                      (* \s *)
Definition digit : regex := Cls isdecimal.                 (* \d *)
Definition word : regex := Cls is_word.                    (* \w *)
Definition dot : regex := Cls (fun c => negb (c =? 10)%N). (* . *)

(** A lower-case ASCII letter [l] of a pattern compiled with IGNORECASE
    matches [l], its capital, and the code points that case-fold onto it:
    U+0130 and U+0131 for [i], U+212A for [k], U+017F for [s]. *)
Definition ci_letter (l c : char) : bool :=
  (c =? l)%N || (c =? l - 32)%N
  || ((l =? 105)%N && ((c =? 304)%N || (c =? 305)%N))
  || ((l =? 107)%N && (c =? 8490)%N)
  || ((l =? 115)%N && (c =? 383)%N).

Definition lit_i (l : char) : regex := Cls (ci_letter l).
Definition word_i (w : string) : regex := cat (map lit_i (py w)).
Definition one_of_i (ls : string) : regex :=
  Cls (fun c => existsb (fun l => ci_letter l c) (py ls)).

(** *** [TextExtractor.CLEANING_PATTERNS] *)

(** 'numbering', compiled with IGNORECASE:
    ^\s*(?: \d+(?:[.)]|\s+) | \d+(?:\.\d+)+\s* | [IVXLCDM]+\.\s* | [a-zA-Z]\.\s* )
    (spaces added between the alternatives for reading). *)
Definition numbering : regex :=
  cat [Bol; Star ws;
       Alt (cat [Plus digit; Alt (one_of (py ".)")) (Plus ws)])
      (Alt (cat [Plus digit; Plus (cat [lit 46%N; Plus digit]); Star ws])
      (Alt (cat [Plus (one_of_i "ivxlcdm"); lit 46%N; Star ws])
           (cat [one_of_i "abcdefghijklmnopqrstuvwxyz"; lit 46%N; Star ws])))].

(** 'section_numbers': ^\s*\d+(?:\.\d+)*\s+ *)
Definition section_numbers : regex :=
  cat [Bol; Star ws; Plus digit; Star (cat [lit 46%N; Plus digit]); Plus ws].

(** 'bullets': ^\s*[-...]\s* where the class holds the hyphen and the
    bullet glyphs U+2022, U+25AA, U+25AB, U+25E6, U+2023 and U+2043. *)
Definition bullet_chars : list char :=
  [45; 8226; 9642; 9643; 9702; 8227; 8259]%N.

Definition bullets : regex :=
  cat [Bol; Star ws; one_of bullet_chars; Star ws].

(** 'whitespace': \s+ *)
Definition whitespace : regex := Plus ws.

(** 'table_content': .*[:;]\s*$|^[^a-zA-Z一-鿿]{3,}$ *)
Definition not_letter_or_cjk (c : char) : bool :=
  negb (ascii_lower c || ascii_upper c || in_range 19968 40959 c).

Definition table_content : regex :=
  Alt (cat [Star dot; one_of (py ":;"); Star ws; Eol])
      (cat [Bol; Cls not_letter_or_cjk; Cls not_letter_or_cjk;
            Plus (Cls not_letter_or_cjk); Eol]).

(** 'copyright_text', compiled with IGNORECASE:
    C.*|copyright.*|\d{4}.*board, where C is the copyright sign U+00A9. *)
Definition copyright_text : regex :=
  Alt (cat [lit 169%N; Star dot])
 (Alt (cat [word_i "copyright"; Star dot])
      (cat [digit; digit; digit; digit; Star dot; word_i "board"])).

(** 'page_numbers', compiled with IGNORECASE:
    ^\s*(?:page\s+)?\d+(?:\s+of\s+\d+)?\s*$ *)
Definition page_numbers : regex :=
  cat [Bol; Star ws; Opt (cat [word_i "page"; Plus ws]); Plus digit;
       Opt (cat [Plus ws; word_i "of"; Plus ws; Plus digit]); Star ws; Eol].

(** \b\w+\b, the pattern of [_is_stop_word_only]. *)
Definition word_token : regex := cat [WordB; Plus word; WordB].

End Engine.

End Re.


(* ===================================================================== *)
(** ** [pdf_utils/reader.py] *)
(* ===================================================================== *)

Module Reader.

(** Outcome of a call that may raise. *)
Inductive outcome (A : Type) :=
| Ok (a : A)
| Raised.
Arguments Ok {A} a.
Arguments Raised {A}.

(** A bounding box [(x0, y0, x1, y1)]. *)
Record BBox := { x0 : Q; y0 : Q; x1 : Q; y1 : Q }.

(** A span of [page.get_text("dict")]; the extractor reads every key with
    [span.get(key, default)], so each may be absent. *)
Record RawSpan := {
  span_text  : option str;
  span_size  : option Q;
  span_flags : option Z;
  span_bbox  : option BBox;
  span_font  : option str
}.

(** A line is its ["spans"]; a block has ["lines"] unless it is an image. *)
Definition RawLine := list RawSpan.
Record RawBlock := { lines : option (list RawLine) }.

(** A [fitz.Page]: [page.rect] and the ["blocks"] of its text dictionary. *)
Record Page := {
  rect_height : Q;
  rect_width  : Q;
  dict_blocks : list RawBlock
}.

(** The [block_info] dictionary; ["page"] is added by
    [get_text_blocks_vectorized]. *)
Record Block := {
  text        : str;
  bbox        : BBox;
  font_name   : str;
  font_size   : Q;
  flags       : Z;
  page_height : Q;
  page_width  : Q;
  relative_y  : Q;
  is_bold     : bool;
  is_italic   : bool;
  page        : option Z
}.

(** [bool(flags & mask)]. *)
Definition flag_set (flags mask : Z) : bool := negb (Z.land flags mask =? 0).

(** The body of the innermost loop of [extract_blocks_from_page]. *)
Definition block_of_span (page_height page_width : Q) (span : RawSpan)
  : option Block :=
  let text := strip (default [] (span_text span)) in
  if negb (nonempty text) then None
  else
    let font_size := default (12 # 1) (span_size span) in
    let font_flags := default 0 (span_flags span) in
    let bbox := default {| x0 := 0; y0 := 0; x1 := 0; y1 := 0 |}
                        (span_bbox span) in
    let relative_y :=
      if Qlt_le_dec 0 page_height then (y0 bbox / page_height)%Q else 0%Q in
    Some {| text := text;
            bbox := bbox;
            font_name := default (py "unknown") (span_font span);
            font_size := font_size;
            flags := font_flags;
            page_height := page_height;
            page_width := page_width;
            relative_y := relative_y;
            is_bold := flag_set font_flags 16;
            is_italic := flag_set font_flags 2;
            page := None |}.

Definition extract_blocks_from_page (p : Page) : list Block :=
  let page_height := rect_height p in
  let page_width := rect_width p in
  flat_map (fun block =>
    match lines block with
    | None => []
    | Some ls =>
        flat_map (fun line =>
          omap (block_of_span page_height page_width) line) ls
    end) (dict_blocks p).

Definition set_page (page_num : Z) (b : Block) : Block :=
  {| text := text b; bbox := bbox b; font_name := font_name b;
     font_size := font_size b; flags := flags b;
     page_height := page_height b; page_width := page_width b;
     relative_y := relative_y b; is_bold := is_bold b;
     is_italic := is_italic b; page := Some page_num |}.

(** [all_blocks] of [get_text_blocks_vectorized], from page [page_num] on. *)
Fixpoint blocks_from (page_num : Z) (pages : list Page) : list Block :=
  match pages with
  | [] => []
  | p :: ps =>
      map (set_page page_num) (extract_blocks_from_page p)
      ++ blocks_from (page_num + 1) ps
  end.

(** A row of the feature matrix: size, bold, relative y, x. *)
Definition feature_row (b : Block) : Q * Z * Q * Q :=
  (font_size b, if is_bold b then 1 else 0, relative_y b, x0 (bbox b)).

Definition get_text_blocks_vectorized (pages : list Page)
  : list (Q * Z * Q * Q) * list Block :=
  let all_blocks := blocks_from 0 pages in
  (map feature_row all_blocks, all_blocks).

(** What [PDFReader] reads of its [fitz] document [self.doc]: the truth
    value Python gives the object in [if self.doc] and its [metadata], which
    is [None] or a dictionary whose values may be [None]. *)
Record Document := {
  truth    : bool;
  metadata : option (gmap string (option str))
}.

(** [PDFReader]: the document and its loaded pages. *)
Record PDFReader := {
  doc   : Document;
  pages : list Page
}.

Definition get_page_count (r : PDFReader) : nat := length (pages r).

(** [get_title_from_metadata]; an empty dictionary is false, and calling
    [.strip()] on a [None] value raises. *)
Definition get_title_from_metadata (r : PDFReader) : outcome (option str) :=
  if truth (doc r)
  then
    match metadata (doc r) with
    | Some m =>
        if bool_decide (m = ∅) then Ok None
        else
          match default (Some []) (m !! "title"%string) with
          | Some t =>
              let title := strip t in
              Ok (if nonempty title then Some title else None)
          | None => Raised
          end
    | None => Ok None
    end
  else Ok None.

(** [get_page]: the page at [page_num], [IndexError] outside
    [0 <= page_num < len(self.pages)] (negative indices do not wrap). *)
Definition get_page (r : PDFReader) (page_num : Z) : outcome Page :=
  if (0 <=? page_num) && (page_num <? Z.of_nat (length (pages r)))
  then
    match pages r !! Z.to_nat page_num with
    | Some p => Ok p
    | None => Raised
    end
  else Raised.

(** *** numpy on a one-dimensional array of sizes *)

Fixpoint insert_sorted (x : Q) (l : list Q) : list Q :=
  match l with
  | [] => [x]
  | y :: l' => if Qle_bool x y then x :: l else y :: insert_sorted x l'
  end.

(** [np.sort]. *)
Definition np_sort (l : list Q) : list Q := foldr insert_sorted [] l.

Definition np_sum (l : list Q) : Q := foldr Qplus 0%Q l.

(** [np.mean]. *)
Definition np_mean (l : list Q) : Q :=
  (np_sum l / inject_Z (Z.of_nat (length l)))%Q.

(** [np.median]: the mean of the middle element of the sorted array, or of
    its two middle elements when the length is even. *)
Definition np_median (l : list Q) : Q :=
  let s := np_sort l in
  let sz := length l in
  let index := (sz / 2)%nat in
  if Nat.even sz
  then np_mean (take 2 (drop (index - 1) s))
  else np_mean (take 1 (drop index s)).

(** Square of [np.std] (the population variance; the root itself has no
    rational value in general). *)
Definition np_var (l : list Q) : Q :=
  let m := np_mean l in
  np_mean (map (fun x => ((x - m) * (x - m))%Q) l).

(** numpy's [_lerp]: [a + (b - a) * t], computed from the other end as
    [b - (b - a) * (1 - t)] when [t >= 0.5].  On rationals the two forms
    agree; on doubles they may round differently, so no equality between a
    percentile and another statistic is derived from this definition. *)
Definition np_lerp (a b t : Q) : Q :=
  if Qle_bool (1 # 2) t then (b - (b - a) * (1 - t))%Q
  else (a + (b - a) * t)%Q.

(** [np.percentile(a, q)] with linear interpolation. *)
Definition np_percentile (l : list Q) (q : Z) : Q :=
  let s := np_sort l in
  let n := length l in
  let virtual := ((inject_Z q / 100) * inject_Z (Z.of_nat (n - 1)))%Q in
  let previous := Qfloor virtual in
  let gamma := (virtual - inject_Z previous)%Q in
  let lo := Z.to_nat previous in
  let hi := Nat.min (lo + 1) (n - 1) in
  let a := nth lo s 0%Q in
  let b := nth hi s 0%Q in
  np_lerp a b gamma.

(** [np.unique(a, return_counts=True)] zipped: the distinct values in
    ascending order, each with its number of occurrences. *)
Fixpoint run_lengths (s : list Q) : list (Q * nat) :=
  match s with
  | [] => []
  | x :: s' =>
      match run_lengths s' with
      | (y, n) :: r => if Qeq_bool x y then (x, S n) :: r
                       else (x, 1%nat) :: (y, n) :: r
      | [] => [(x, 1%nat)]
      end
  end.

Definition np_unique_counts (l : list Q) : list (Q * nat) :=
  run_lengths (np_sort l).

(** The dictionary returned by [analyze_font_distribution].  The keys that
    only the non-degenerate result has are optional; ["std_size"] is kept as
    its square. *)
Record FontStats := {
  body_size    : Q;
  mean_size    : option Q;
  std_size_sq  : option Q;
  sizes        : list Q;
  unique_sizes : option (list Q);
  size_counts  : option (list (Q * nat));
  percentiles  : gmap string Q
}.

Definition analyze_font_distribution (blocks : list Block) : FontStats :=
  match blocks with
  | [] =>
      {| body_size := 12 # 1; mean_size := None; std_size_sq := None;
         sizes := []; unique_sizes := None; size_counts := None;
         percentiles := ∅ |}
  | _ =>
      let sizes := map font_size blocks in
      {| body_size := np_median sizes;
         mean_size := Some (np_mean sizes);
         std_size_sq := Some (np_var sizes);
         sizes := sizes;
         unique_sizes := Some (map fst (np_unique_counts sizes));
         size_counts := Some (np_unique_counts sizes);
         percentiles :=
           list_to_map
             (map (fun q : string * Z => (fst q, np_percentile sizes (snd q)))
                  [("25", 25); ("50", 50); ("75", 75);
                   ("85", 85); ("90", 90); ("95", 95)]%string) |}
  end.

(** [FONT_FLAGS] and the two flag tests. *)
Definition FONT_SUPERSCRIPT : Z := Z.shiftl 1 0.
Definition FONT_ITALIC : Z := Z.shiftl 1 1.
Definition FONT_SERIFED : Z := Z.shiftl 1 2.
Definition FONT_MONOSPACED : Z := Z.shiftl 1 3.
Definition FONT_BOLD : Z := Z.shiftl 1 4.

Definition is_bold_flags (flags : Z) : bool := flag_set flags FONT_BOLD.
Definition is_italic_flags (flags : Z) : bool := flag_set flags FONT_ITALIC.

End Reader.

(* ===================================================================== *)
(** ** [pdf_utils/text_extract.py] *)
(* ===================================================================== *)

Module TextExtract.

Import Re Reader.

(** Values a heading dictionary may hold under keys other than ['text']. *)
Inductive pyval :=
| PNone
| PBool (b : bool)
| PInt (z : Z)
| PFloat (q : Q)
| PStr (s : str)
| PQuad (a b c d : Q).

(** A heading candidate: a dictionary whose ['text'] entry, when present, is
    a [str]; [fields] holds every other key (['level'], ['page'], ...). *)
Record Heading := {
  htext  : option str;
  fields : gmap string pyval
}.

(** [self.title_extraction_stats]. *)
Definition Stats := gmap string string.

Definition Qltb (a b : Q) : bool := negb (Qle_bool b a).

(** [sorted(l, key=key)]: stable. *)
Section Sorting.
Context {A K : Type} (ltb : K -> K -> bool) (key : A -> K).

Fixpoint insert_by (x : A) (l : list A) : list A :=
  match l with
  | [] => [x]
  | y :: l' =>
      if ltb (key y) (key x) then y :: insert_by x l' else x :: l
  end.

Definition sorted (l : list A) : list A := foldr insert_by [] l.

End Sorting.

(** [max] of a non-empty sequence of floats, from its first element. *)
Definition max_from (m : Q) (l : list Q) : Q :=
  fold_left (fun m x => if Qltb m x then x else m) l m.

Definition Qabs_le (x bound : Q) : bool := Qle_bool (Qabs x) bound.

Definition bbox_eqb (a b : BBox) : bool :=
  Qeq_bool (x0 a) (x0 b) && Qeq_bool (y0 a) (y0 b)
  && Qeq_bool (x1 a) (x1 b) && Qeq_bool (y1 a) (y1 b).

(** [a == b] on two block dictionaries. *)
Definition block_eqb (a b : Block) : bool :=
  str_eqb (text a) (text b) && bbox_eqb (bbox a) (bbox b)
  && str_eqb (font_name a) (font_name b)
  && Qeq_bool (font_size a) (font_size b)
  && (flags a =? flags b)
  && Qeq_bool (page_height a) (page_height b)
  && Qeq_bool (page_width a) (page_width b)
  && Qeq_bool (relative_y a) (relative_y b)
  && Bool.eqb (is_bold a) (is_bold b)
  && Bool.eqb (is_italic a) (is_italic b)
  && bool_decide (page a = page b).

(** [b.get('page', 0)] and [b['bbox'][1]]. *)
Definition page_or_0 (b : Block) : Z := default 0 (page b).
Definition top (b : Block) : Q := y0 (bbox b).

(** Tuple order on the sort key [(page, y)]. *)
Definition page_y_ltb (a b : Z * Q) : bool :=
  (fst a <? fst b) || ((fst a =? fst b) && Qltb (snd a) (snd b)).

Section Extractor.
Context `{UnicodeData}.

(** [STOP_WORDS['english'] | STOP_WORDS['common']]. *)
Definition STOP_WORDS_english : gset str :=
  list_to_set (map py ["the"; "a"; "an"; "and"; "or"; "but"; "in"; "on";
                       "at"; "to"; "for"; "of"; "with"; "by"]%string).
Definition STOP_WORDS_common : gset str :=
  list_to_set (map py ["page"; "document"; "file"; "untitled"; "draft";
                       "version"; "v"; "pdf"]%string).

Definition clean_heading_text (text : str) : str :=
  if negb (nonempty text) || negb (nonempty (strip text)) then []
  else
    let cleaned := strip text in
    let cleaned := strip (sub section_numbers [] cleaned) in
    let cleaned := strip (sub numbering [] cleaned) in
    let cleaned := strip (sub bullets [] cleaned) in
    let cleaned := strip (sub whitespace [space] cleaned) in
    let cleaned := rstrip_chars (py ".-_:") cleaned in
    cleaned.

Definition count_alpha (text : str) : nat :=
  length (filter (fun c => isalpha c = true) text).

Definition invalid_patterns : list str :=
  map py ["page "; "document"; "draft"; "version";
          "table of contents"; "toc"; "index"]%string.

Definition _is_valid_title (text : str) : bool :=
  if negb (nonempty text) || (length (strip text) <? 3)%nat then false
  else
    let text_lower := strip (lower text) in
    if existsb (fun pattern => contains pattern text_lower) invalid_patterns
    then false
    else
      let alpha_chars := count_alpha text in
      if Qltb (inject_Z (Z.of_nat alpha_chars))
              (inject_Z (Z.of_nat (length text)) * (3 # 10))
      then false
      else if matches table_content text then false
      else true.

Definition _is_stop_word_only (text : str) : bool :=
  let words := findall word_token (lower text) in
  match words with
  | [] => true
  | _ =>
      let all_stop_words := STOP_WORDS_english ∪ STOP_WORDS_common in
      let non_stop_words :=
        filter (fun w => w ∉ all_stop_words) words in
      (length non_stop_words =? 0)%nat
  end.

(** Strategy 1: largest font text in the first 15% of page 0. *)
Definition extract_title_strategy_1 (blocks : list Block) (page_cutoff : Q)
  (stats : Stats) : option str * Stats :=
  match filter (fun b => page_or_0 b = 0) blocks with
  | [] => (None, stats)
  | first :: others =>
      let first_page_blocks := first :: others in
      let cutoff_y := (page_height first * page_cutoff)%Q in
      let upper_blocks :=
        match filter (fun b => Qle_bool (top b) cutoff_y = true)
                     first_page_blocks with
        | [] => take 3 (sorted Qltb top first_page_blocks)
        | upper => upper
        end in
      match upper_blocks with
      | [] => (None, stats)
      | b0 :: bs =>
          let max_size := max_from (font_size b0) (map font_size bs) in
          let largest_blocks :=
            sorted Qltb top
              (filter (fun b => Qeq_bool (font_size b) max_size = true)
                      upper_blocks) in
          match largest_blocks with
          | [] => (None, stats)
          | title_block :: _ =>
              let title_parts :=
                text title_block ::
                map text
                  (filter (fun block =>
                     (negb (block_eqb block title_block)
                      && Qabs_le (font_size block - max_size) 1
                      && Qabs_le (top block - top title_block) (30 # 1))
                     = true) upper_blocks) in
              let title_candidate := strip (join [space] title_parts) in
              if _is_valid_title title_candidate
              then (Some (title_candidate ++ [space; space]),
                    <["strategy" := "font_size"]> stats)
              else (None, stats)
          end
      end
  end.

(** Strategy 2: the metadata title; the [try] swallows what the reader
    raises. *)
Definition extract_title_strategy_2 (pdf_reader : PDFReader) (stats : Stats)
  : option str * Stats :=
  match get_title_from_metadata pdf_reader with
  | Ok (Some metadata_title) =>
      if nonempty metadata_title && _is_valid_title metadata_title
      then (Some (strip metadata_title ++ [space; space]),
            <["strategy" := "metadata"]> stats)
      else (None, stats)
  | Ok None => (None, stats)
  | Raised => (None, stats)
  end.

(** The loop of strategy 3 over the first twenty sorted blocks. *)
Fixpoint first_meaningful_line (blocks : list Block) (stats : Stats)
  : option str * Stats :=
  match blocks with
  | [] => (None, stats)
  | block :: rest =>
      let text := strip (text block) in
      if (length text <? 3)%nat then first_meaningful_line rest stats
      else if matches page_numbers text
              || search copyright_text text
      then first_meaningful_line rest stats
      else if _is_valid_title text && negb (_is_stop_word_only text)
      then (Some (text ++ [space; space]),
            <["strategy" := "first_line"]> stats)
      else first_meaningful_line rest stats
  end.

(** Strategy 3: first meaningful line. *)
Definition extract_title_strategy_3 (blocks : list Block) (stats : Stats)
  : option str * Stats :=
  match blocks with
  | [] => (None, stats)
  | _ =>
      let sorted_blocks :=
        sorted page_y_ltb (fun x => (page_or_0 x, top x)) blocks in
      first_meaningful_line (take 20 sorted_blocks) stats
  end.

(** A strategy's result counts when it is a non-empty string. *)
Definition truthy (t : option str) : bool :=
  match t with Some s => nonempty s | None => false end.

Definition extract_title_with_fallback (blocks : list Block)
  (pdf_reader : PDFReader) (filename : str) (stats : Stats) : str * Stats :=
  if nonempty filename && contains (py "file05") (lower filename)
  then ([], <["strategy" := "special_empty"]> stats)
  else
    let '(title, stats) := extract_title_strategy_1 blocks (15 # 100) stats in
    if truthy title then (default [] title, stats)
    else
      let '(title, stats) := extract_title_strategy_2 pdf_reader stats in
      if truthy title then (default [] title, stats)
      else
        let '(title, stats) := extract_title_strategy_3 blocks stats in
        if truthy title then (default [] title, stats)
        else if nonempty filename
        then
          let stem := replace (py "-") [space]
                        (replace (py "_") [space]
                           (replace (py ".pdf") [] filename)) in
          (if nonempty (strip stem) then strip stem ++ [space; space]
           else py "Untitled Document",
           <["strategy" := "filename"]> stats)
        else (py "Untitled Document", <["strategy" := "default"]> stats).

Definition form_words : list str :=
  map py ["application"; "form"; "grant"; "ltc"]%string.

(** The [for] loop of [filter_heading_candidates], with its two
    accumulators; the [return []] inside the loop ends it. *)
Fixpoint filter_loop (min_length max_length : nat) (headings : list Heading)
  (filtered : list Heading) (seen_texts : gset str) : list Heading :=
  match headings with
  | [] => filtered
  | heading :: rest =>
      let continue := filter_loop min_length max_length rest in
      let text := strip (default [] (htext heading)) in
      if negb (nonempty text)
         || negb ((min_length <=? length text)%nat
                  && (length text <=? max_length)%nat)
      then continue filtered seen_texts
      else if matches page_numbers text
              || search copyright_text text
      then continue filtered seen_texts
      else if matches table_content text
      then continue filtered seen_texts
      else
        let alpha_ratio :=
          (inject_Z (Z.of_nat (count_alpha text))
           / inject_Z (Z.of_nat (length text)))%Q in
        if Qltb alpha_ratio (3 # 10) then continue filtered seen_texts
        else
          let cleaned_text := clean_heading_text text in
          if negb (nonempty cleaned_text) then continue filtered seen_texts
          else
            let text_key := strip (lower cleaned_text) in
            if bool_decide (text_key ∈ seen_texts)
            then continue filtered seen_texts
            else
              let seen_texts := seen_texts ∪ {[text_key]} in
              if existsb (fun word => contains word (lower text)) form_words
                 && (length filtered =? 0)%nat
              then []
              else
                let heading_copy :=
                  {| htext := Some (cleaned_text ++ [space]);
                     fields := fields heading |} in
                continue (filtered ++ [heading_copy]) seen_texts
  end.

Definition filter_heading_candidates_with (headings : list Heading)
  (min_length max_length : nat) : list Heading :=
  match headings with
  | [] => []
  | _ => filter_loop min_length max_length headings [] ∅
  end.

(** The call with the default [min_length=3], [max_length=200]. *)
Definition filter_heading_candidates (headings : list Heading)
  : list Heading :=
  filter_heading_candidates_with headings 3 200.

Definition get_extraction_stats (stats : Stats) : Stats := stats.

(** [is_heading_like(text, font_size, body_size, flags, threshold)]. *)
Definition is_heading_like (text : str) (font_size body_size : Q)
  (flags : Z) (threshold : Q) : bool :=
  if Qltb font_size (body_size * threshold) then false
  else if (100 <? length (strip text))%nat then false
  else
    let is_bold := flag_set flags 16 in
    if is_bold && Qle_bool body_size font_size then true
    else Qle_bool (body_size * threshold) font_size.

(** [extract_numbers_from_text]: the matches of four patterns, pattern
    after pattern: \d+, \d+(?:\.\d+)+, [IVXLCDM]+ and [a-zA-Z]. *)
Definition number_patterns : list regex :=
  [ Plus digit;
    cat [Plus digit; Plus (cat [lit 46%N; Plus digit])];
    Plus (one_of (py "IVXLCDM"));
    Cls (fun c => ascii_lower c || ascii_upper c) ].

Definition extract_numbers_from_text (text : str) : list str :=
  flat_map (fun pattern => findall pattern text) number_patterns.

End Extractor.

End TextExtract.

(* ===================================================================== *)
(** ** [process_pdfs.py]: [OutlineExtractor] *)
(* ===================================================================== *)

Module Pipeline.

Import Re Reader TextExtract.

Record OutlineItem := {
  level       : pyval;
  text        : str;
  page        : pyval
}.

(** The dictionary [extract_outline_from_pdf] returns. *)
Record Result := {
  title   : str;
  outline : list OutlineItem
}.

Section OutlineExtractor.
Context `{UnicodeData}.

(** [HeadingDetector.detect_headings]: [pdf_utils/heading_detect.py] is not
    among the sources, so the detector is a parameter of the pipeline; it
    returns heading dictionaries or raises. *)
Variable detect_headings : list Block -> outcome (list Heading).

Definition form_indicators : list str :=
  map py ["application"; "form"; "grant"; "ltc"; "government";
          "servant"]%string.

Definition _should_have_empty_outline (blocks : list Block) (filename : str)
  : bool :=
  match blocks with
  | [] => true
  | _ =>
      if contains (py "file01") (lower filename) then true
      else
        let text_content :=
          join [space]
               (map (fun block => lower (Reader.text block))
                    (take 20 blocks)) in
        let form_count :=
          length (filter (fun indicator =>
                            contains indicator text_content = true)
                         form_indicators) in
        if (3 <=? form_count)%nat then true else false
  end.

(** One [outline_item]; a missing key raises [KeyError]. *)
Definition outline_item (heading : Heading) : outcome OutlineItem :=
  match fields heading !! "level"%string, htext heading,
        fields heading !! "page"%string with
  | Some l, Some t, Some p => Ok {| level := l; text := t; page := p |}
  | _, _, _ => Raised
  end.

Fixpoint outline_items (headings : list Heading)
  : outcome (list OutlineItem) :=
  match headings with
  | [] => Ok []
  | heading :: rest =>
      match outline_item heading with
      | Ok item =>
          match outline_items rest with
          | Ok items => Ok (item :: items)
          | Raised => Raised
          end
      | Raised => Raised
      end
  end.

(** The result built in the [except] branch. *)
Definition failure_result (stem : str) : Result :=
  {| title := if nonempty stem then stem else py "Processing Failed";
     outline := [] |}.

(** [extract_outline_from_pdf]; [stem] is [Path(pdf_path).stem] and [opened]
    what [PDFReader(pdf_path)] gives: the reader, or the exception raised
    while loading. *)
Definition extract_outline_from_pdf (stem : str) (opened : outcome PDFReader)
  : Result :=
  match opened with
  | Raised => failure_result stem
  | Ok pdf_reader =>
      let '(features, all_blocks) :=
        get_text_blocks_vectorized (pages pdf_reader) in
      let filename := stem in
      let '(title, stats) :=
        extract_title_with_fallback all_blocks pdf_reader filename ∅ in
      if _should_have_empty_outline all_blocks filename
      then {| title := title; outline := [] |}
      else
        match detect_headings all_blocks with
        | Raised => failure_result stem
        | Ok raw_headings =>
            let filtered_headings :=
              filter_heading_candidates raw_headings in
            match outline_items filtered_headings with
            | Raised => failure_result stem
            | Ok outline => {| title := title; outline := outline |}
            end
        end
  end.

End OutlineExtractor.

(** [self.stats] without its wall-clock entry. *)
Record BatchStats := {
  processed_files        : nat;
  successful_extractions : nat;
  failed_extractions     : nat
}.

Section Batch.
Context `{UnicodeData}.
Variable detect_headings : list Block -> outcome (list Heading).

(** The file system and the schema validator lie outside the program:
    [stem_of p] is [Path(p).stem], [open_pdf p] what [PDFReader(p)] gives,
    [schema] the loaded schema ([None] when the schema file is missing) as
    the set of results [jsonschema.validate] accepts, and [write_json p r]
    tells whether creating the directory and dumping [r] to [p] went
    through without an exception. *)
Variable path : Type.
Variable stem_of : path -> str.
Variable open_pdf : path -> outcome PDFReader.
Variable schema : option (Result -> bool).
Variable write_json : path -> Result -> bool.

Definition validate_output (output_data : Result) : bool :=
  match schema with
  | None => true
  | Some accepts => accepts output_data
  end.

(** [process_single_file]: the success flag and, when something was
    written, the file and its content. *)
Definition process_single_file (input_path output_path : path)
  : bool * option (path * Result) :=
  let result :=
    extract_outline_from_pdf detect_headings (stem_of input_path)
                             (open_pdf input_path) in
  if negb (validate_output result) then (false, None)
  else if write_json output_path result
  then (true, Some (output_path, result))
  else (false, None).

(** The loop of [process_directory] over [pdf_files]; [json_path] maps a
    PDF to the JSON file beside its stem in the output directory. *)
Fixpoint process_files (json_path : path -> path) (pdf_files : list path)
  (stats : BatchStats) (written : list (path * Result))
  : BatchStats * list (path * Result) :=
  match pdf_files with
  | [] => (stats, written)
  | pdf_file :: rest =>
      let stats :=
        {| processed_files := processed_files stats + 1;
           successful_extractions := successful_extractions stats;
           failed_extractions := failed_extractions stats |} in
      let '(success, out) :=
        process_single_file pdf_file (json_path pdf_file) in
      let stats :=
        if success
        then {| processed_files := processed_files stats;
                successful_extractions := successful_extractions stats + 1;
                failed_extractions := failed_extractions stats |}
        else {| processed_files := processed_files stats;
                successful_extractions := successful_extractions stats;
                failed_extractions := failed_extractions stats + 1 |} in
      process_files json_path rest stats
        (written ++ match out with Some w => [w] | None => [] end)
  end.

(** [process_directory]: [exists_dir] tells whether the input directory exists,
    [pdf_files] is what the glob finds in it. *)
Definition process_directory (exists_dir : bool) (pdf_files : list path)
  (json_path : path -> path) (stats : BatchStats)
  : BatchStats * list (path * Result) :=
  if negb exists_dir then (stats, [])
  else
    match pdf_files with
    | [] => (stats, [])
    | _ => process_files json_path pdf_files stats []
    end.

(** The exit code [main] derives from a directory run. *)
Definition exit_code (stats : BatchStats) : Z :=
  if (failed_extractions stats =? 0)%nat then 0 else 1.

End Batch.

End Pipeline.

(* ===================================================================== *)
(** ** Reference notions the properties are stated against *)
(* ===================================================================== *)

Module Notions.

Import Reader TextExtract.

(** A value clamped into the interval [0, 1]. *)
Definition clamp01 (q : Q) : Q := Qmin 1 (Qmax 0 q).

(** [x] is the element of rank [k] (counting from 0) of [l] in ascending
    order: it occurs in [l], at most [k] elements are smaller, and more than
    [k] elements are smaller or equal. *)
Definition count_lt (x : Q) (l : list Q) : nat :=
  length (filter (fun y => Qltb y x = true) l).
Definition count_le (x : Q) (l : list Q) : nat :=
  length (filter (fun y => Qle_bool y x = true) l).

Definition has_rank (l : list Q) (k : nat) (x : Q) : Prop :=
  In x l /\ (count_lt x l <= k)%nat /\ (k < count_le x l)%nat.

(** Ascending order, as a relation between every element and the ones
    after it. *)
Definition ascending (l : list Q) : Prop :=
  forall i j a b,
    (i < j)%nat -> l !! i = Some a -> l !! j = Some b -> (a <= b)%Q.

(** Consecutive elements strictly increase. *)
Fixpoint strictly_increasing (l : list Q) : Prop :=
  match l with
  | a :: ((b :: _) as t) => (a < b)%Q /\ strictly_increasing t
  | _ => True
  end.

(** [m] is the median of [l]: its middle element by rank, or the mean of the
    two middle elements when the length is even. *)
Definition is_median (l : list Q) (m : Q) : Prop :=
  let n := length l in
  if Nat.even n
  then exists a b, has_rank l (n / 2 - 1) a /\ has_rank l (n / 2) b
                   /\ (m == (a + b) / 2)%Q
  else exists a, has_rank l (n / 2) a /\ (m == a)%Q.

(** [s] does not begin, respectively end, with a character of class [p]. *)
Definition no_lead (p : char -> bool) (s : str) : Prop :=
  match s with c :: _ => p c = false | [] => True end.
Definition no_trail (p : char -> bool) (s : str) : Prop :=
  match last s with Some c => p c = false | None => True end.

(** Whitespace collapsing written as a direct recursion: every maximal run
    of whitespace becomes one space.  [in_run] tells whether the previous
    character was whitespace. *)
Fixpoint collapse_from (in_run : bool) (s : str) : str :=
  match s with
  | [] => []
  | c :: s' =>
      if isspace c
      then if in_run then collapse_from true s'
           else space :: collapse_from true s'
      else c :: collapse_from false s'
  end.

(** Number of whitespace characters [s] begins with. *)
Fixpoint lead (s : str) : nat :=
  match s with
  | c :: s' => if isspace c then S (lead s') else O
  | [] => O
  end.

(** Every whitespace character of [s] is a single space followed by a
    character that is not whitespace (or by nothing). *)
Fixpoint collapsed (s : str) : Prop :=
  match s with
  | [] => True
  | c :: s' =>
      (isspace c = true -> c = space /\ no_lead isspace s') /\ collapsed s'
  end.

(** The heading copy the filter appends for a surviving candidate. *)
Definition cleaned_copy `{UnicodeData} (heading : Heading) : Heading :=
  {| htext := Some (clean_heading_text (strip (default [] (htext heading)))
                    ++ [space]);
     fields := fields heading |}.

(** The trimmed text of a candidate, the checks a candidate has to pass
    before it is cleaned and kept, the key under which kept candidates are
    deduplicated, and the form-word test of the document-level gate. *)
Definition raw_text (heading : Heading) : str :=
  strip (default [] (htext heading)).

Definition passes_checks `{UnicodeData} (min_length max_length : nat)
  (heading : Heading) : bool :=
  let text := raw_text heading in
  nonempty text
  && ((min_length <=? length text)%nat && (length text <=? max_length)%nat)
  && negb (Re.matches Re.page_numbers text || Re.search Re.copyright_text text)
  && negb (Re.matches Re.table_content text)
  && negb (Qltb (inject_Z (Z.of_nat (count_alpha text))
                 / inject_Z (Z.of_nat (length text))) (3 # 10))
  && nonempty (clean_heading_text text).

Definition dedup_key `{UnicodeData} (heading : Heading) : str :=
  strip (lower (clean_heading_text (raw_text heading))).

Definition has_form_word `{UnicodeData} (heading : Heading) : bool :=
  existsb (fun word => contains word (lower (raw_text heading))) form_words.

(** The space-joined lower-case text of the first twenty of [blocks], and
    the number of distinct form indicators a text contains. *)
Definition gate_text `{UnicodeData} (blocks : list Block) : str :=
  join [space] (map (fun block => lower (Reader.text block)) (take 20 blocks)).

Definition indicator_count (text_content : str) : nat :=
  length (filter (fun indicator => contains indicator text_content = true)
                 Pipeline.form_indicators).

(** What a strategy returns: nothing, with the statistics untouched, or a
    trimmed valid candidate followed by two spaces, with its tag recorded. *)
Definition strategy_outcome `{UnicodeData} (tag : string) (stats : Stats)
  (res : option str * Stats) : Prop :=
  res = (None, stats)
  \/ exists candidate,
       _is_valid_title candidate = true /\ strip candidate = candidate
       /\ res = (Some (candidate ++ [space; space]),
                 <["strategy"%string := tag]> stats).

(** The spans of a page in reading order, and the trimmed text of a span. *)
Definition all_spans (p : Page) : list RawSpan :=
  flat_map (fun block =>
              match lines block with
              | Some ls => concat ls
              | None => []
              end) (dict_blocks p).

Definition span_trimmed (span : RawSpan) : str :=
  strip (default [] (span_text span)).

(** The title the filename strategy of the cascade produces. *)
Definition filename_title (filename : str) : str :=
  if nonempty filename
  then
    let stem := replace (py "-") [space]
                  (replace (py "_") [space]
                     (replace (py ".pdf") [] filename)) in
    if nonempty (strip stem) then strip stem ++ [space; space]
    else py "Untitled Document"
  else py "Untitled Document".

End Notions.

(* ===================================================================== *)
(** ** Sample documents and inputs *)
(* ===================================================================== *)

Module Samples.

Import Reader TextExtract.

(** A page carrying one span whose top edge is below the page's bottom. *)
Definition tall_page : Page :=
  {| rect_height := 800 # 1; rect_width := 600 # 1;
     dict_blocks :=
       [ {| lines := Some
              [[ {| span_text := Some (py "Footer");
                    span_size := Some (10 # 1);
                    span_flags := Some 0;
                    span_bbox := Some {| x0 := 72 # 1; y0 := 900 # 1;
                                         x1 := 200 # 1; y1 := 912 # 1 |};
                    span_font := Some (py "Helvetica") |} ]] |} ] |}.

(** A heading dictionary of level 1 on page 0. *)
Definition heading_of (t : string) : Heading :=
  {| htext := Some (py t);
     fields := {[ "level"%string := PInt 1; "page"%string := PInt 0 ]} |}.

(** A detector output whose only candidate is a numbered two-letter
    heading. *)
Definition short_numbered : list Heading := [heading_of "1. Ab"].

Definition two_headings : list Heading :=
  [heading_of "2.1 Overview"; heading_of "Background:"].

(** A detector that reports [two_headings] whatever the blocks. *)
Definition fixed_detector (blocks : list Block) : outcome (list Heading) :=
  Ok two_headings.

(** A one-page document with a single body span and no metadata. *)
Definition plain_page : Page :=
  {| rect_height := 800 # 1; rect_width := 600 # 1;
     dict_blocks :=
       [ {| lines := Some
              [[ {| span_text := Some (py "Quarterly results");
                    span_size := Some (12 # 1);
                    span_flags := Some 0;
                    span_bbox := Some {| x0 := 72 # 1; y0 := 400 # 1;
                                         x1 := 300 # 1; y1 := 412 # 1 |};
                    span_font := Some (py "Helvetica") |} ]] |} ] |}.

Definition plain_reader : PDFReader :=
  {| doc := {| truth := true; metadata := None |}; pages := [plain_page] |}.

(** A page that holds an image block only: no text span is extracted. *)
Definition scanned_page : Page :=
  {| rect_height := 800 # 1; rect_width := 600 # 1;
     dict_blocks := [ {| lines := None |} ] |}.

(** Two scanned one-page documents, with and without a declared title. *)
Definition titled_reader : PDFReader :=
  {| doc := {| truth := true;
               metadata :=
                 Some {[ "title"%string := Some (py " Annual Report ") ]} |};
     pages := [scanned_page] |}.

Definition untitled_reader : PDFReader :=
  {| doc := {| truth := true; metadata := None |};
     pages := [scanned_page] |}.

(** A one-page form. *)
Definition form_page : Page :=
  {| rect_height := 800 # 1; rect_width := 600 # 1;
     dict_blocks :=
       [ {| lines := Some
              [[ {| span_text :=
                      Some (py "Application form for grant of LTC advance");
                    span_size := Some (14 # 1);
                    span_flags := Some 16;
                    span_bbox := Some {| x0 := 72 # 1; y0 := 60 # 1;
                                         x1 := 400 # 1; y1 := 76 # 1 |};
                    span_font := Some (py "Helvetica-Bold") |} ]] |} ] |}.

Definition form_reader : PDFReader :=
  {| doc := {| truth := true; metadata := None |}; pages := [form_page] |}.

Definition numbered_words : str := py "1 2 3 foo".
Definition numbered_heading : str := py " 3.2.1  Background Information ".

(** Four spans of sizes 18, 12, 10 and 12, and a single span of size 9. *)
Definition sized_block (size : Q) : Block :=
  {| Reader.text := py "x";
     bbox := {| x0 := 0; y0 := 0; x1 := 0; y1 := 0 |};
     font_name := py "unknown"; font_size := size; flags := 0;
     page_height := 800 # 1; page_width := 600 # 1; relative_y := 0;
     is_bold := false; is_italic := false; Reader.page := Some 0 |}.

Definition four_sizes : list Block :=
  map sized_block [18 # 1; 12 # 1; 10 # 1; 12 # 1].

(** Three candidates of different levels and pages; the second is dropped
    by the filter. *)
Definition leveled_heading (t : string) (lvl pg : Z) : Heading :=
  {| htext := Some (py t);
     fields := {[ "level"%string := PInt lvl; "page"%string := PInt pg ]} |}.

Definition leveled_headings : list Heading :=
  [leveled_heading "1. Introduction" 1 0;
   leveled_heading "Contents:" 1 1;
   leveled_heading "3. Methods" 2 7].

(** The two spans of a title page: a bold 18-point heading above a
    12-point body line. *)
Definition title_page_block (t : string) (size y : Q) (fl : Z) : Block :=
  {| Reader.text := py t;
     bbox := {| x0 := 72 # 1; y0 := y; x1 := 300 # 1; y1 := y + (12 # 1) |};
     font_name := py "Helvetica"; font_size := size; flags := fl;
     page_height := 800 # 1; page_width := 600 # 1;
     relative_y := y / (800 # 1); is_bold := flag_set fl 16;
     is_italic := false; Reader.page := Some 0 |}.

Definition title_page_blocks : list Block :=
  [title_page_block "Introduction" (18 # 1) (50 # 1) 16;
   title_page_block "This is body text." (12 # 1) (100 # 1) 0].

(** A form's heading followed by an ordinary one. *)
Definition form_headings : list Heading :=
  [heading_of "Application form"; heading_of "Overview"].

(** A batch of three files named by numbers, none of which can be opened;
    no schema is loaded and every write goes through. *)
Definition unreadable (p : nat) : outcome PDFReader := Raised.
Definition numbered_stem (p : nat) : str := py "doc".
Definition always_written (p : nat) (r : Pipeline.Result) : bool := true.
Definition zero_stats : Pipeline.BatchStats :=
  {| Pipeline.processed_files := 0;
     Pipeline.successful_extractions := 0;
     Pipeline.failed_extractions := 0 |}.

End Samples.

(* ===================================================================== *)
(** * Properties *)
(* ===================================================================== *)

Import Re Reader TextExtract Pipeline Notions Samples.

(** ** Span extraction: [relative_y] *)

Lemma block_of_span_relative_y ph pw span b :
  block_of_span ph pw span = Some b ->
  page_height b = ph /\
  relative_y b = if Qlt_le_dec 0 ph then (y0 (bbox b) / ph)%Q else 0%Q.
Proof.
  unfold block_of_span.
  destruct (negb (nonempty (strip (default [] (span_text span))))); [done|].
  intros [= <-]; simpl. done.
Qed.

Lemma extract_blocks_from_page_inv p b :
  b ∈ extract_blocks_from_page p ->
  exists span, block_of_span (rect_height p) (rect_width p) span = Some b.
Proof.
  unfold extract_blocks_from_page.
  rewrite list_elem_of_In, in_flat_map.
  intros (blk & _ & Hb). destruct (lines blk) as [ls|]; [|destruct Hb].
  apply in_flat_map in Hb as (line & _ & Hb).
  apply list_elem_of_In, list_elem_of_omap in Hb as (span & _ & Hs).
  eauto.
Qed.

(** C9, as stated, fails: a span whose top edge lies below the bottom of an
    800-unit page gets [relative_y = 9/8], which is neither inside [0,1] nor
    the clamped quotient. *)
Lemma relative_y_unclamped_counterexample :
  exists b,
    extract_blocks_from_page tall_page = [b]
    /\ (relative_y b == 9 # 8)%Q
    /\ ~ (relative_y b <= 1)%Q
    /\ ~ (relative_y b == clamp01 (y0 (bbox b) / rect_height tall_page))%Q.
Proof.
  eexists. split; [vm_compute; reflexivity|].
  split; [reflexivity|].
  split; intros Hc; vm_compute in Hc; [apply Hc; reflexivity | discriminate].
Qed.

(** C9 (amended): for every extracted span, [relative_y] is the plain
    quotient [y0 / page_height] when the page height is positive and 0
    otherwise; no clamping takes place, so with a positive height it lies in
    [0,1] exactly when [0 <= y0 <= page_height]. *)
Theorem relative_y_is_plain_quotient (p : Page) (b : Block) :
  b ∈ extract_blocks_from_page p ->
  (relative_y b =
     if Qlt_le_dec 0 (rect_height p)
     then (y0 (bbox b) / rect_height p)%Q else 0%Q)
  /\ ((0 < rect_height p)%Q ->
      ((0 <= relative_y b /\ relative_y b <= 1)%Q
       <-> (0 <= y0 (bbox b) /\ y0 (bbox b) <= rect_height p)%Q))
  /\ (~ (0 < rect_height p)%Q -> relative_y b = 0%Q).
Proof.
  intros Hb. apply extract_blocks_from_page_inv in Hb as (span & Hs).
  apply block_of_span_relative_y in Hs as [_ ->].
  destruct (Qlt_le_dec 0 (rect_height p)) as [Hpos|Hle].
  - split; [done|]. split; [|intros Hn; done].
    intros _.
    set (h := rect_height p) in *. set (y := y0 (bbox b)).
    assert (Hh : ~ (h == 0)%Q) by (intros E; rewrite E in Hpos; discriminate).
    split; intros [H0 H1]; split.
    + apply (Qmult_le_compat_r _ _ h) in H0; [|apply Qlt_le_weak; done].
      rewrite Qmult_0_l in H0.
      unfold Qdiv in H0. rewrite <- Qmult_assoc, (Qmult_comm (/ h)),
        Qmult_inv_r, Qmult_1_r in H0 by done. done.
    + apply (Qmult_le_compat_r _ _ h) in H1; [|apply Qlt_le_weak; done].
      rewrite Qmult_1_l in H1.
      unfold Qdiv in H1. rewrite <- Qmult_assoc, (Qmult_comm (/ h)),
        Qmult_inv_r, Qmult_1_r in H1 by done. done.
    + apply Qle_shift_div_l; [done|]. rewrite Qmult_0_l. done.
    + apply Qle_shift_div_r; [done|]. rewrite Qmult_1_l. done.
  - split; [done|]. split; [|done].
    intros Hpos. exfalso. apply (Qlt_not_le _ _ Hpos Hle).
Qed.

Lemma relative_y_is_plain_quotient_witness :
  exists b, b ∈ extract_blocks_from_page tall_page
            /\ relative_y b = (y0 (bbox b) / rect_height tall_page)%Q.
Proof.
  eexists. split.
  - vm_compute. apply list_elem_of_here.
  - exact (proj1 (relative_y_is_plain_quotient tall_page _
                    ltac:(vm_compute; apply list_elem_of_here))).
Defined.

(** ** [is_heading_like] *)

(** The guard on the first line decides everything: past it, both later
    returns are [True]. *)
Lemma is_heading_like_spec text font_size body_size flags threshold :
  is_heading_like text font_size body_size flags threshold
  = Qle_bool (body_size * threshold) font_size
    && (length (strip text) <=? 100)%nat.
Proof.
  unfold is_heading_like, Qltb.
  destruct (Qle_bool (body_size * threshold) font_size) eqn:E; simpl; [|done].
  destruct (Nat.ltb_spec 100 (length (strip text))) as [Hl|Hl].
  - symmetry. apply Nat.leb_gt. done.
  - replace (length (strip text) <=? 100)%nat with true
      by (symmetry; apply Nat.leb_le; done).
    destruct (flag_set flags 16 && Qle_bool body_size font_size); done.
Qed.

(** C1 (the code departs from the claim): a bold span whose size equals the
    body size 12 and is below 12 * 1.2 is rejected, because the size guard
    returns before the bold test is reached. *)
Theorem is_heading_like_rejects_bold_body_size :
  flag_set 16 16 = true
  /\ Qle_bool (12 # 1) (12 # 1) = true
  /\ Qltb (12 # 1) ((12 # 1) * (12 # 10)) = true
  /\ is_heading_like (py "Summary") (12 # 1) (12 # 1) 16 (12 # 10) = false.
Proof. vm_compute. done. Qed.

(** ** The candidate filter *)

Section FilterFacts.
Context `{UnicodeData}.

(** What the loop returns: the accumulator followed by the cleaned copies of
    a subsequence of the remaining candidates.  The [return []] inside the
    loop only fires while the accumulator is still empty. *)
Lemma filter_loop_spec min_length max_length headings :
  forall filtered seen_texts,
  exists kept,
    sublist kept headings
    /\ filter_loop min_length max_length headings filtered seen_texts
       = filtered ++ map cleaned_copy kept.
Proof.
  induction headings as [|heading rest IH]; intros filtered seen_texts.
  - exists []. split; [constructor|]. simpl. by rewrite app_nil_r.
  - assert (Hdrop : forall f s,
      exists kept, sublist kept (heading :: rest)
        /\ filter_loop min_length max_length rest f s
           = f ++ map cleaned_copy kept).
    { intros f s. destruct (IH f s) as (kept & Hsub & Heq).
      exists kept. split; [by apply sublist_cons|done]. }
    cbn [filter_loop].
    set (text := strip (default [] (htext heading))).
    destruct (negb (nonempty text) || _); [apply Hdrop|].
    destruct (matches page_numbers text || _); [apply Hdrop|].
    destruct (matches table_content text); [apply Hdrop|].
    destruct (Qltb _ _); [apply Hdrop|].
    destruct (negb (nonempty (clean_heading_text text))); [apply Hdrop|].
    destruct (bool_decide _); [apply Hdrop|].
    destruct (existsb (fun word => contains word (lower text)) form_words
              && (length filtered =? 0)%nat) eqn:Hform.
    + apply andb_true_iff in Hform as [_ Hlen].
      apply Nat.eqb_eq in Hlen. destruct filtered; [|discriminate].
      exists []. split; [apply sublist_nil_l|done].
    + destruct (IH (filtered ++ [cleaned_copy heading])
                   (seen_texts ∪ {[strip (lower (clean_heading_text text))]}))
        as (kept & Hsub & Heq).
      exists (heading :: kept). split; [by apply sublist_skip|].
      unfold cleaned_copy in *. fold text in Heq. rewrite Heq.
      by rewrite <- app_assoc.
Qed.

Lemma filter_heading_candidates_spec headings :
  exists kept,
    sublist kept headings
    /\ filter_heading_candidates headings = map cleaned_copy kept.
Proof.
  unfold filter_heading_candidates, filter_heading_candidates_with.
  destruct headings as [|h hs].
  - exists []. split; [constructor|done].
  - apply (filter_loop_spec 3 200 (h :: hs) [] ∅).
Qed.

Lemma filter_heading_candidates_elem headings h' :
  h' ∈ filter_heading_candidates headings ->
  exists h, h ∈ headings /\ h' = cleaned_copy h.
Proof.
  destruct (filter_heading_candidates_spec headings) as (kept & Hsub & ->).
  intros Hin. apply list_elem_of_fmap in Hin as (h & -> & Hh).
  exists h. split; [|done]. eapply elem_of_sublist; eauto.
Qed.

End FilterFacts.

#[local] Existing Instance ascii_data.

(** C6, as stated, fails: filtering is not idempotent.  The candidate
    "1. Ab" survives the first pass as "Ab "; on the second pass its trimmed
    text has two characters, below [min_length], and is dropped. *)
Lemma filter_not_idempotent_counterexample :
  map htext (filter_heading_candidates short_numbered) = [Some (py "Ab ")]
  /\ filter_heading_candidates (filter_heading_candidates short_numbered) = []
  /\ filter_heading_candidates (filter_heading_candidates short_numbered)
     <> filter_heading_candidates short_numbered.
Proof.
  assert (H1 : map htext (filter_heading_candidates short_numbered)
               = [Some (py "Ab ")]) by (vm_compute; reflexivity).
  assert (H2 : filter_heading_candidates
                 (filter_heading_candidates short_numbered) = [])
    by (vm_compute; reflexivity).
  split; [done|]. split; [done|].
  rewrite H2. intros E. rewrite <- E in H1. discriminate.
Qed.

(** C6 (amended): the filter is order-preserving: its output is the list
    of cleaned copies of a subsequence of its input, in the input's order.
    Idempotence is not claimed. *)
Theorem filter_heading_candidates_order_preserving
  `{UnicodeData} (headings : list Heading) :
  exists kept,
    sublist kept headings
    /\ filter_heading_candidates headings = map cleaned_copy kept
    /\ map fields (filter_heading_candidates headings) = map fields kept.
Proof.
  destruct (filter_heading_candidates_spec headings) as (kept & Hsub & Heq).
  exists kept. split; [done|]. split; [done|].
  rewrite Heq. clear. induction kept; simpl; congruence.
Qed.

(** C8: the heading at position [i] of the filter's output is the cleaned
    copy of the candidate at position [i] of the kept subsequence of the
    input: it carries that candidate's fields unchanged, in particular its
    ['level'] and ['page'], and only its ['text'] is replaced, by the
    cleaned text of that same candidate followed by a space. *)
Theorem filter_preserves_level_and_page
  `{UnicodeData} (headings : list Heading) (i : nat) (h' : Heading) :
  filter_heading_candidates headings !! i = Some h' ->
  exists kept h,
    sublist kept headings
    /\ filter_heading_candidates headings = map cleaned_copy kept
    /\ kept !! i = Some h
    /\ h ∈ headings
    /\ h' = cleaned_copy h
    /\ fields h' = fields h
    /\ fields h' !! "level"%string = fields h !! "level"%string
    /\ fields h' !! "page"%string = fields h !! "page"%string
    /\ htext h' = Some (clean_heading_text (strip (default [] (htext h)))
                        ++ [space]).
Proof.
  destruct (filter_heading_candidates_spec headings) as (kept & Hsub & Heq).
  rewrite Heq. intros Hi.
  change (map cleaned_copy kept) with (cleaned_copy <$> kept) in Hi.
  rewrite list_lookup_fmap in Hi.
  destruct (kept !! i) as [h|] eqn:Hk; [|discriminate].
  injection Hi as <-.
  exists kept, h. repeat split; try done.
  eapply elem_of_sublist; [|exact Hsub].
  by apply list_elem_of_lookup_2 in Hk.
Qed.

Lemma filter_preserves_level_and_page_witness :
  exists h' h,
    filter_heading_candidates leveled_headings !! 1%nat = Some h'
    /\ leveled_headings !! 2%nat = Some h
    /\ h' = cleaned_copy h
    /\ fields h' !! "level"%string = Some (PInt 2)
    /\ fields h' !! "page"%string = Some (PInt 7).
Proof.
  assert (Hrun : filter_heading_candidates leveled_headings !! 1%nat
                 = Some (cleaned_copy (leveled_heading "3. Methods" 2 7)))
    by (vm_compute; reflexivity).
  destruct (filter_preserves_level_and_page leveled_headings 1 _ Hrun)
    as (kept & h & _ & _ & _ & _ & Hcopy & _ & Hl & Hp & _).
  exists (cleaned_copy (leveled_heading "3. Methods" 2 7)),
         (leveled_heading "3. Methods" 2 7).
  split; [exact Hrun|]. split; [reflexivity|]. split; [reflexivity|].
  split; reflexivity.
Defined.

(** ** Trailing space of emitted heading texts *)

Lemma outline_items_inv headings items item :
  outline_items headings = Ok items ->
  item ∈ items ->
  exists h, h ∈ headings /\ htext h = Some (Pipeline.text item).
Proof.
  revert items. induction headings as [|h hs IH]; intros items; simpl.
  - intros [= <-] Hin. by apply not_elem_of_nil in Hin.
  - destruct (outline_item h) as [it|] eqn:Hit; [|discriminate].
    destruct (outline_items hs) as [its|]; [|discriminate].
    intros [= <-] Hin. apply elem_of_cons in Hin as [->|Hin].
    + exists h. split; [apply list_elem_of_here|].
      unfold outline_item in Hit.
      destruct (fields h !! "level"%string), (htext h),
               (fields h !! "page"%string); try discriminate.
      by injection Hit as <-.
    + destruct (IH its eq_refl Hin) as (h0 & Hh0 & Ht).
      exists h0. split; [by apply list_elem_of_further|done].
Qed.

(** Every outline entry of a result is built from a filtered heading of the
    detector's output. *)
Lemma extract_outline_item_origin `{UnicodeData} detect stem opened item :
  item ∈ outline (extract_outline_from_pdf detect stem opened) ->
  exists pdf_reader raw_headings h,
    opened = Ok pdf_reader
    /\ detect (snd (get_text_blocks_vectorized (pages pdf_reader)))
       = Ok raw_headings
    /\ h ∈ filter_heading_candidates raw_headings
    /\ htext h = Some (Pipeline.text item).
Proof.
  unfold extract_outline_from_pdf.
  destruct opened as [pdf_reader|]; simpl;
    [|intros Hin; by apply not_elem_of_nil in Hin].
  destruct (extract_title_with_fallback _ _ _ _) as [title stats].
  destruct (_should_have_empty_outline _ _); simpl;
    [intros Hin; by apply not_elem_of_nil in Hin|].
  destruct (detect _) as [raw|] eqn:Hraw; simpl;
    [|intros Hin; by apply not_elem_of_nil in Hin].
  destruct (outline_items _) as [items|] eqn:Hitems; simpl;
    [|intros Hin; by apply not_elem_of_nil in Hin].
  intros Hin.
  destruct (outline_items_inv _ _ _ Hitems Hin) as (h & Hh & Ht).
  exists pdf_reader, raw, h. done.
Qed.

(** C10: every heading the filter emits has as text the cleaned text of the
    candidate it comes from followed by one space, and so has every outline
    entry of a per-document result; no emitted text is free of trailing
    whitespace. *)
Theorem emitted_text_is_cleaned_plus_space
  `{UnicodeData} (detect : list Block -> outcome (list Heading)) :
  (forall headings h',
     h' ∈ filter_heading_candidates headings ->
     exists h,
       h ∈ headings
       /\ htext h' = Some (clean_heading_text
                             (strip (default [] (htext h))) ++ [space]))
  /\ (forall stem opened item,
        item ∈ outline (extract_outline_from_pdf detect stem opened) ->
        exists pdf_reader raw_headings h,
          opened = Ok pdf_reader
          /\ detect (snd (get_text_blocks_vectorized (pages pdf_reader)))
             = Ok raw_headings
          /\ h ∈ raw_headings
          /\ Pipeline.text item
             = clean_heading_text (strip (default [] (htext h))) ++ [space]
          /\ last (Pipeline.text item) = Some space).
Proof.
  split.
  - intros headings h' Hin.
    apply filter_heading_candidates_elem in Hin as (h & Hh & ->).
    exists h. done.
  - intros stem opened item Hin.
    apply extract_outline_item_origin in Hin
      as (pdf_reader & raw & h' & -> & Hraw & Hh' & Ht).
    apply filter_heading_candidates_elem in Hh' as (h & Hh & ->).
    simpl in Ht. injection Ht as Ht.
    exists pdf_reader, raw, h. rewrite <- Ht.
    repeat split; try done. apply last_snoc.
Qed.

Lemma emitted_text_is_cleaned_plus_space_witness :
  (exists h' h,
     h' ∈ filter_heading_candidates two_headings
     /\ h ∈ two_headings
     /\ htext h' = Some (clean_heading_text
                           (strip (default [] (htext h))) ++ [space]))
  /\ (exists item,
        item ∈ outline (extract_outline_from_pdf fixed_detector
                          (py "notes") (Ok plain_reader))
        /\ last (Pipeline.text item) = Some space).
Proof.
  pose proof (emitted_text_is_cleaned_plus_space fixed_detector) as [Hf Hp].
  split.
  - assert (Hin : cleaned_copy (heading_of "2.1 Overview")
                  ∈ filter_heading_candidates two_headings)
      by (vm_compute; apply list_elem_of_here).
    destruct (Hf two_headings _ Hin) as (h & Hh & Ht).
    exists (cleaned_copy (heading_of "2.1 Overview")), h. done.
  - assert (Hin : {| level := PInt 1; Pipeline.text := py "Overview ";
                     Pipeline.page := PInt 0 |}
                  ∈ outline (extract_outline_from_pdf fixed_detector
                               (py "notes") (Ok plain_reader)))
      by (vm_compute; apply list_elem_of_here).
    destruct (Hp _ _ _ Hin) as (r & raw & h & _ & _ & _ & _ & Hl).
    eexists. split; [exact Hin|exact Hl].
Defined.

(** ** Trimming *)

Section StripFacts.
Variable p : char -> bool.

Lemma lstrip_by_no_lead s : no_lead p (lstrip_by p s).
Proof.
  induction s as [|c s IH]; simpl; [done|].
  destruct (p c) eqn:E; [done|]. simpl. done.
Qed.

Lemma lstrip_by_id s : no_lead p s -> lstrip_by p s = s.
Proof. destruct s as [|c s]; simpl; [done|]. by intros ->. Qed.

Lemma rstrip_by_no_trail s : no_trail p (rstrip_by p s).
Proof.
  induction s as [|c s IH]; simpl; [done|].
  destruct (rstrip_by p s) as [|d r] eqn:E.
  - destruct (p c) eqn:Ec; [done|]. unfold no_trail. simpl. done.
  - unfold no_trail in *. by rewrite last_cons_cons.
Qed.

Lemma rstrip_by_id s : no_trail p s -> rstrip_by p s = s.
Proof.
  induction s as [|c s IH]; simpl; [done|].
  destruct s as [|d s].
  - unfold no_trail. simpl. by intros ->.
  - unfold no_trail in *. rewrite last_cons_cons. intros Hl.
    rewrite (IH Hl). done.
Qed.

Lemma rstrip_by_no_lead s : no_lead p s -> no_lead p (rstrip_by p s).
Proof.
  destruct s as [|c s]; simpl; [done|]. intros Hc.
  destruct (rstrip_by p s); [rewrite Hc|]; done.
Qed.

Lemma rstrip_by_idem s : rstrip_by p (rstrip_by p s) = rstrip_by p s.
Proof. apply rstrip_by_id, rstrip_by_no_trail. Qed.

End StripFacts.

Lemma strip_no_lead s : no_lead isspace (strip s).
Proof. apply rstrip_by_no_lead, lstrip_by_no_lead. Qed.

Lemma strip_no_trail s : no_trail isspace (strip s).
Proof. apply rstrip_by_no_trail. Qed.

Lemma strip_id s : no_lead isspace s -> no_trail isspace s -> strip s = s.
Proof.
  intros Hl Ht. unfold strip, lstrip, rstrip.
  rewrite (lstrip_by_id _ _ Hl). by apply rstrip_by_id.
Qed.

Lemma strip_idem s : strip (strip s) = strip s.
Proof. apply strip_id; [apply strip_no_lead | apply strip_no_trail]. Qed.

(** ** The title cascade *)

Section TitleFacts.
Context `{UnicodeData}.

Lemma get_title_from_metadata_stripped pdf_reader title :
  get_title_from_metadata pdf_reader = Ok (Some title) ->
  strip title = title.
Proof.
  unfold get_title_from_metadata.
  destruct (truth (doc pdf_reader)); [|discriminate].
  destruct (metadata (doc pdf_reader)) as [m|]; [|discriminate].
  destruct (bool_decide (m = ∅)); [discriminate|].
  destruct (default (Some []) (m !! "title"%string)) as [t|]; [|discriminate].
  destruct (nonempty (strip t)); intros [= <-]. apply strip_idem.
Qed.

Lemma strategy_1_shape blocks page_cutoff stats stats' t :
  extract_title_strategy_1 blocks page_cutoff stats = (Some t, stats') ->
  exists candidate,
    _is_valid_title candidate = true /\ strip candidate = candidate
    /\ t = candidate ++ [space; space].
Proof.
  unfold extract_title_strategy_1.
  destruct (filter _ blocks) as [|first rest]; [discriminate|].
  match goal with |- context [match ?u with [] => (None, stats) | _ => _ end] =>
    destruct u as [|b0 bs]; [discriminate|] end.
  match goal with |- context [match ?u with [] => (None, stats) | _ => _ end] =>
    destruct u as [|title_block others]; [discriminate|] end.
  match goal with |- context [_is_valid_title ?c] =>
    destruct (_is_valid_title c) eqn:Hv; [|discriminate];
    intros [= <- _]; exists c end.
  split; [done|]. split; [apply strip_idem|done].
Qed.

Lemma strategy_2_shape pdf_reader stats stats' t :
  extract_title_strategy_2 pdf_reader stats = (Some t, stats') ->
  exists candidate,
    get_title_from_metadata pdf_reader = Ok (Some candidate)
    /\ _is_valid_title candidate = true /\ strip candidate = candidate
    /\ t = candidate ++ [space; space].
Proof.
  unfold extract_title_strategy_2.
  destruct (get_title_from_metadata pdf_reader) as [[m|]|] eqn:Hm;
    try discriminate.
  destruct (nonempty m && _is_valid_title m) eqn:Hv; [|discriminate].
  apply andb_true_iff in Hv as [_ Hv].
  pose proof (get_title_from_metadata_stripped _ _ Hm) as Hs.
  rewrite Hs. intros [= <- _]. exists m. done.
Qed.

Lemma first_meaningful_line_shape blocks stats stats' t :
  first_meaningful_line blocks stats = (Some t, stats') ->
  exists block,
    block ∈ blocks
    /\ _is_valid_title (strip (Reader.text block)) = true
    /\ t = strip (Reader.text block) ++ [space; space].
Proof.
  induction blocks as [|block rest IH]; simpl; [discriminate|].
  assert (Hnext : first_meaningful_line rest stats = (Some t, stats') ->
                  exists b, b ∈ block :: rest
                    /\ _is_valid_title (strip (Reader.text b)) = true
                    /\ t = strip (Reader.text b) ++ [space; space]).
  { intros Hr. destruct (IH Hr) as (b & Hb & Hrest).
    exists b. split; [by apply list_elem_of_further|done]. }
  destruct (length (strip (Reader.text block)) <? 3)%nat; [done|].
  destruct (matches page_numbers _ || search copyright_text _); [done|].
  destruct (_is_valid_title (strip (Reader.text block))) eqn:Hv;
    simpl; [|done].
  destruct (negb (_is_stop_word_only _)); [|done].
  intros [= <- _]. exists block. split; [apply list_elem_of_here|done].
Qed.

Lemma strategy_3_shape blocks stats stats' t :
  extract_title_strategy_3 blocks stats = (Some t, stats') ->
  exists candidate,
    _is_valid_title candidate = true /\ strip candidate = candidate
    /\ t = candidate ++ [space; space].
Proof.
  unfold extract_title_strategy_3. destruct blocks as [|b bs]; [discriminate|].
  intros Hl. apply first_meaningful_line_shape in Hl as (block & _ & Hv & ->).
  exists (strip (Reader.text block)).
  split; [done|]. split; [apply strip_idem|done].
Qed.

End TitleFacts.

(** C7: a title accepted by strategy 1, 2 or 3 is the accepted candidate,
    which is trimmed and passes the validity check, followed by exactly two
    space characters. *)
Theorem accepted_title_has_two_trailing_spaces
  `{UnicodeData} (blocks : list Block) (page_cutoff : Q)
  (pdf_reader : PDFReader) (stats stats' : Stats) (t : str) :
  extract_title_strategy_1 blocks page_cutoff stats = (Some t, stats')
  \/ extract_title_strategy_2 pdf_reader stats = (Some t, stats')
  \/ extract_title_strategy_3 blocks stats = (Some t, stats') ->
  exists candidate,
    _is_valid_title candidate = true
    /\ strip candidate = candidate
    /\ t = candidate ++ [space; space].
Proof.
  intros [H1|[H2|H3]].
  - by apply strategy_1_shape in H1.
  - apply strategy_2_shape in H2 as (c & _ & Hc). by exists c.
  - by apply strategy_3_shape in H3.
Qed.

(** Strategy 1 on a title page: the 18-point heading is the title, and the
    12-point line below it is not stitched in (its size differs by more
    than one unit). *)
Lemma strategy_1_on_title_page :
  extract_title_strategy_1 title_page_blocks (15 # 100) ∅
  = (Some (py "Introduction  "),
     {[ "strategy"%string := "font_size"%string ]}).
Proof. vm_compute. reflexivity. Qed.

Lemma accepted_title_has_two_trailing_spaces_witness :
  extract_title_strategy_2 titled_reader ∅
  = (Some (py "Annual Report  "), {[ "strategy"%string := "metadata"%string ]})
  /\ exists candidate,
       strip candidate = candidate
       /\ py "Annual Report  " = candidate ++ [space; space].
Proof.
  assert (Hrun : extract_title_strategy_2 titled_reader ∅
                 = (Some (py "Annual Report  "),
                    {[ "strategy"%string := "metadata"%string ]}))
    by (vm_compute; reflexivity).
  split; [exact Hrun|].
  destruct (accepted_title_has_two_trailing_spaces
              [] (15 # 100) titled_reader ∅ _ _ (or_intror (or_introl Hrun)))
    as (c & _ & Hs & Ht).
  exists c. done.
Defined.

(** ** The orchestrator on a document without spans *)

Section ZeroSpans.
Context `{UnicodeData}.

Lemma is_valid_title_nonempty t : _is_valid_title t = true -> nonempty t = true.
Proof. unfold _is_valid_title. destruct t; simpl; [discriminate|done]. Qed.

Lemma nonempty_app_two (s : str) a b : nonempty (s ++ [a; b]) = true.
Proof. destruct s; done. Qed.

Lemma extract_title_no_blocks pdf_reader filename stats :
  fst (extract_title_with_fallback [] pdf_reader filename stats)
  = if nonempty filename && contains (py "file05") (lower filename) then []
    else
      match get_title_from_metadata pdf_reader with
      | Ok (Some metadata_title) =>
          if _is_valid_title metadata_title
          then metadata_title ++ [space; space]
          else filename_title filename
      | _ => filename_title filename
      end.
Proof.
  unfold extract_title_with_fallback.
  destruct (nonempty filename && contains (py "file05") (lower filename));
    [done|].
  cbn [extract_title_strategy_1 filter list_filter truthy
       extract_title_strategy_3].
  unfold extract_title_strategy_2, filename_title.
  destruct (get_title_from_metadata pdf_reader) as [[m|]|] eqn:Hm; simpl.
  - destruct (_is_valid_title m) eqn:Hv.
    + rewrite (is_valid_title_nonempty _ Hv). simpl.
      rewrite nonempty_app_two. simpl.
      by rewrite (get_title_from_metadata_stripped _ _ Hm).
    + rewrite andb_false_r. simpl. by destruct (nonempty filename).
  - by destruct (nonempty filename).
  - by destruct (nonempty filename).
Qed.

End ZeroSpans.

(** C3, as stated, fails: with no spans the title is not the filename stem.
    When the metadata declares a valid title, that title wins; otherwise the
    filename strategy appends two spaces to the stem. *)
Lemma zero_span_title_counterexample :
  snd (get_text_blocks_vectorized (pages titled_reader)) = []
  /\ extract_outline_from_pdf fixed_detector (py "report") (Ok titled_reader)
     = {| title := py "Annual Report  "; outline := [] |}
  /\ snd (get_text_blocks_vectorized (pages untitled_reader)) = []
  /\ extract_outline_from_pdf fixed_detector (py "report") (Ok untitled_reader)
     = {| title := py "report  "; outline := [] |}
  /\ extract_outline_from_pdf fixed_detector (py "report") (Ok titled_reader)
     <> {| title := py "report"; outline := [] |}
  /\ extract_outline_from_pdf fixed_detector (py "report") (Ok untitled_reader)
     <> {| title := py "report"; outline := [] |}.
Proof.
  repeat split; try (vm_compute; reflexivity);
    intros E; vm_compute in E; discriminate.
Qed.

(** C3 (amended): for every document from which zero spans are extracted
    the outline is empty, and the title is the empty string when the
    filename contains 'file05'; otherwise the metadata title followed by two
    spaces when the metadata declares a valid one; otherwise the filename
    fallback: the stem with '.pdf' removed and '_' and '-' turned into
    spaces, trimmed and followed by two spaces, or 'Untitled Document' when
    nothing is left. *)
Theorem zero_span_result
  `{UnicodeData} (detect : list Block -> outcome (list Heading))
  (stem : str) (pdf_reader : PDFReader) :
  snd (get_text_blocks_vectorized (pages pdf_reader)) = [] ->
  outline (extract_outline_from_pdf detect stem (Ok pdf_reader)) = []
  /\ title (extract_outline_from_pdf detect stem (Ok pdf_reader))
     = if nonempty stem && contains (py "file05") (lower stem) then []
       else
         match get_title_from_metadata pdf_reader with
         | Ok (Some metadata_title) =>
             if _is_valid_title metadata_title
             then metadata_title ++ [space; space]
             else filename_title stem
         | _ => filename_title stem
         end.
Proof.
  intros Hnone. unfold extract_outline_from_pdf.
  unfold get_text_blocks_vectorized in *. simpl in Hnone. rewrite Hnone.
  cbn [map].
  pose proof (extract_title_no_blocks pdf_reader stem ∅) as Ht.
  destruct (extract_title_with_fallback [] pdf_reader stem ∅) as [t st].
  simpl in Ht. simpl. done.
Qed.

Lemma zero_span_result_witness :
  snd (get_text_blocks_vectorized (pages untitled_reader)) = []
  /\ outline (extract_outline_from_pdf fixed_detector (py "my_report")
                (Ok untitled_reader)) = []
  /\ title (extract_outline_from_pdf fixed_detector (py "my_report")
              (Ok untitled_reader)) = py "my report  ".
Proof.
  assert (Hnone : snd (get_text_blocks_vectorized (pages untitled_reader)) = [])
    by reflexivity.
  destruct (zero_span_result fixed_detector (py "my_report") untitled_reader
              Hnone) as [Ho Ht].
  split; [exact Hnone|]. split; [exact Ho|].
  rewrite Ht. vm_compute. reflexivity.
Defined.

(** ** The empty-outline gate *)

Lemma startswith_app p s t : startswith p s = true -> startswith p (s ++ t) = true.
Proof.
  revert s. induction p as [|a p IH]; intros [|b s]; simpl; try done.
  intros Hs. apply andb_true_iff in Hs as [-> Hs]. simpl. by apply IH.
Qed.

Lemma contains_app p s t : contains p s = true -> contains p (s ++ t) = true.
Proof.
  induction s as [|c s IH]; simpl.
  - rewrite orb_false_r. destruct p; [|discriminate].
    intros _. by destruct t.
  - intros Hc. apply orb_true_iff in Hc as [Hc|Hc].
    + apply orb_true_iff. left.
      by apply (startswith_app p (c :: s) t).
    + apply orb_true_iff. right. by apply IH.
Qed.

Lemma join_app_prefix sep (l1 l2 : list str) :
  exists t, join sep (l1 ++ l2) = join sep l1 ++ t.
Proof.
  induction l1 as [|a l1 IH]; simpl.
  - by exists (join sep l2).
  - destruct IH as [t IH]. destruct l1 as [|b l1].
    + simpl in *. destruct l2 as [|c l2].
      * exists []. by rewrite app_nil_r.
      * by exists (sep ++ join sep (c :: l2)).
    + exists t. change ((b :: l1) ++ l2) with (b :: (l1 ++ l2)) in *.
      cbn [app]. rewrite IH. by rewrite <- !app_assoc.
Qed.

Lemma filter_length_mono {A} (P Q : A -> Prop)
  `{!forall x, Decision (P x)} `{!forall x, Decision (Q x)} (l : list A) :
  (forall x, P x -> Q x) ->
  (length (filter P l) <= length (filter Q l))%nat.
Proof.
  intros HPQ. induction l as [|x l IH]; [done|].
  rewrite !filter_cons.
  destruct (decide (P x)) as [HP|HP].
  - destruct (decide (Q x)) as [HQ|HQ]; [simpl; lia|].
    exfalso. by apply HQ, HPQ.
  - destruct (decide (Q x)); simpl; lia.
Qed.

Lemma filter_all {A} (P : A -> Prop) `{!forall x, Decision (P x)} (l : list A) :
  (forall x, x ∈ l -> P x) -> filter P l = l.
Proof.
  induction l as [|x l IH]; intros Hall; [done|].
  rewrite filter_cons_True by apply Hall, list_elem_of_here.
  f_equal. apply IH. intros y Hy. by apply Hall, list_elem_of_further.
Qed.

Lemma filter_none {A} (P : A -> Prop) `{!forall x, Decision (P x)} (l : list A) :
  (forall x, x ∈ l -> ~ P x) -> filter P l = [].
Proof.
  induction l as [|x l IH]; intros Hnone; [done|].
  rewrite filter_cons_False by apply Hnone, list_elem_of_here.
  apply IH. intros y Hy. by apply Hnone, list_elem_of_further.
Qed.

Lemma blocks_from_page_ge n ps b :
  b ∈ blocks_from n ps -> exists k, n <= k /\ Reader.page b = Some k.
Proof.
  revert n. induction ps as [|p ps IH]; intros n; simpl.
  - intros Hin. by apply not_elem_of_nil in Hin.
  - intros Hin. apply elem_of_app in Hin as [Hin|Hin].
    + apply list_elem_of_fmap in Hin as (b0 & -> & _).
      exists n. split; [lia|done].
    + apply IH in Hin as (k & Hk & Hp). exists k. split; [lia|done].
Qed.

(** The blocks of page 0 are the first blocks of the document. *)
Lemma first_page_blocks_prefix ps :
  exists later,
    blocks_from 0 ps
    = filter (fun b => Reader.page b = Some 0) (blocks_from 0 ps) ++ later.
Proof.
  destruct ps as [|p ps]; simpl.
  - by exists [].
  - exists (blocks_from 1 ps). rewrite filter_app. f_equal.
    replace (filter (fun b => Reader.page b = Some 0) (blocks_from 1 ps))
      with (@nil Block).
    + rewrite app_nil_r. symmetry. apply filter_all.
      intros b Hb.
      apply list_elem_of_fmap in Hb as (b0 & -> & _). done.
    + symmetry. apply filter_none.
      intros b Hb.
      apply blocks_from_page_ge in Hb as (k & Hk & Hp).
      rewrite Hp. intros [= ->]. lia.
Qed.

Section Gate.
Context `{UnicodeData}.

Lemma gate_fires blocks filename :
  (3 <= indicator_count (gate_text blocks))%nat ->
  _should_have_empty_outline blocks filename = true.
Proof.
  unfold _should_have_empty_outline, indicator_count, gate_text.
  intros Hc. destruct blocks; [done|].
  destruct (contains (py "file01") (lower filename)); [done|].
  apply Nat.leb_le in Hc. by rewrite Hc.
Qed.

Lemma gate_text_prefix l1 l2 :
  exists t, gate_text (l1 ++ l2) = gate_text l1 ++ t.
Proof.
  unfold gate_text. rewrite take_app, map_app. apply join_app_prefix.
Qed.

Lemma indicator_count_prefix l1 l2 :
  (indicator_count (gate_text l1) <= indicator_count (gate_text (l1 ++ l2)))%nat.
Proof.
  destruct (gate_text_prefix l1 l2) as [t ->].
  unfold indicator_count. apply filter_length_mono.
  intros ind. apply contains_app.
Qed.

End Gate.

(** C4: when the space-joined lower-case text of the first twenty spans of
    the first page contains at least three of the six form indicators, the
    empty-outline gate fires and the result's outline is empty, whatever the
    heading detector would report. *)
Theorem form_document_has_empty_outline
  `{UnicodeData} (detect : list Block -> outcome (list Heading))
  (stem : str) (pdf_reader : PDFReader) :
  let all_blocks := snd (get_text_blocks_vectorized (pages pdf_reader)) in
  let first_page_spans :=
    filter (fun b => Reader.page b = Some 0) all_blocks in
  (3 <= indicator_count (gate_text first_page_spans))%nat ->
  _should_have_empty_outline all_blocks stem = true
  /\ outline (extract_outline_from_pdf detect stem (Ok pdf_reader)) = [].
Proof.
  intros all_blocks first_page_spans Hcount.
  assert (Hgate : _should_have_empty_outline all_blocks stem = true).
  { apply gate_fires.
    destruct (first_page_blocks_prefix (pages pdf_reader)) as [later Hsplit].
    unfold all_blocks, get_text_blocks_vectorized. simpl. rewrite Hsplit.
    etrans; [exact Hcount|]. apply indicator_count_prefix. }
  split; [exact Hgate|].
  unfold extract_outline_from_pdf.
  unfold all_blocks, get_text_blocks_vectorized in Hgate. simpl in Hgate.
  unfold get_text_blocks_vectorized.
  destruct (extract_title_with_fallback _ _ _ _) as [t st].
  by rewrite Hgate.
Qed.

Lemma form_document_has_empty_outline_witness :
  (3 <= indicator_count
          (gate_text
             (filter (fun b => Reader.page b = Some 0%Z)
                (snd (get_text_blocks_vectorized (pages form_reader))))))%nat
  /\ fixed_detector (snd (get_text_blocks_vectorized (pages form_reader)))
     = Ok two_headings
  /\ outline (extract_outline_from_pdf fixed_detector (py "ltc_form")
                (Ok form_reader)) = [].
Proof.
  assert (Hcount :
    (3 <= indicator_count
            (gate_text
               (filter (fun b => Reader.page b = Some 0%Z)
                  (snd (get_text_blocks_vectorized (pages form_reader))))))%nat)
    by (vm_compute; lia).
  split; [exact Hcount|]. split; [reflexivity|].
  exact (proj2 (form_document_has_empty_outline fixed_detector
                  (py "ltc_form") form_reader Hcount)).
Defined.

(** ** Cleaning heading text *)

Section CleanFacts.
Context `{UnicodeData}.

(** A pattern that begins with [^] matches nowhere but at the start. *)
Lemma sub_from_anchored r repl s c :
  sub_from (Seq Bol r) repl 0 (Some c) s = s.
Proof.
  revert c. induction s as [|x s IH]; intros c; [done|].
  cbn [sub_from]. unfold match_at. simpl. by rewrite IH.
Qed.

Lemma sub_anchored_no_match r repl s :
  rmatch (Seq Bol r) s = None -> sub (Seq Bol r) repl s = s.
Proof.
  unfold sub, rmatch. destruct s as [|x s]; [done|].
  cbn [sub_from].
  match goal with |- context [match_at ?a ?b] =>
    destruct (match_at a b); simpl; [discriminate|] end.
  intros _. by rewrite sub_from_anchored.
Qed.

Lemma run_ws prev s :
  run ws (prev, s)
  = match s with
    | x :: s' => if isspace x then [(Some x, s')] else []
    | [] => []
    end.
Proof. reflexivity. Qed.

Lemma sub_section_numbers_no_match s :
  rmatch section_numbers s = None -> sub section_numbers [] s = s.
Proof. exact (sub_anchored_no_match _ [] s). Qed.

Lemma sub_numbering_no_match s :
  rmatch numbering s = None -> sub numbering [] s = s.
Proof. exact (sub_anchored_no_match _ [] s). Qed.

Lemma sub_bullets_no_match s :
  rmatch bullets s = None -> sub bullets [] s = s.
Proof. exact (sub_anchored_no_match _ [] s). Qed.

(** Greedy [\s*] stops after the longest run of whitespace. *)
Lemma star_ws_head fuel s prev :
  (length s <= fuel)%nat ->
  exists prev' others,
    star_loop (run ws) fuel (prev, s)
    = (prev', lstrip_by isspace s) :: others.
Proof.
  revert s prev. induction fuel as [|fuel IH]; intros s prev Hlen.
  - destruct s; [|simpl in Hlen; lia]. by exists prev, [].
  - cbn [star_loop]. rewrite run_ws. destruct s as [|x s].
    + by exists prev, [].
    + cbn [lstrip_by]. destruct (isspace x) eqn:Hx.
      * cbn [flat_map ahead snd].
        replace (length s <? length (x :: s))%nat with true
          by (symmetry; apply Nat.ltb_lt; simpl; lia).
        destruct (IH s (Some x)) as (prev' & others & ->);
          [simpl in Hlen; lia|].
        by exists prev', ((others ++ []) ++ [(prev, x :: s)]).
      * by exists prev, [].
Qed.

Lemma match_at_whitespace prev x s :
  match_at whitespace (prev, x :: s)
  = if isspace x
    then head (star_loop (run ws) (length s) (Some x, s) ++ [])
    else None.
Proof.
  unfold match_at, whitespace, Plus. cbn [run]. rewrite run_ws.
  destruct (isspace x); [|done]. cbn [flat_map run ahead snd]. done.
Qed.

Lemma lead_lstrip s : (length s - length (lstrip_by isspace s))%nat = lead s.
Proof.
  induction s as [|x s IH]; [done|]. simpl.
  destruct (isspace x); [|simpl; lia].
  pose proof (f_equal S IH) as IH'.
  assert (length (lstrip_by isspace s) <= length s)%nat.
  { clear. induction s as [|y s IH]; simpl; [lia|].
    destruct (isspace y); simpl; lia. }
  lia.
Qed.

Lemma match_whitespace_ahead prev x s c :
  match_at whitespace (prev, x :: s) = Some c ->
  isspace x = true /\ ahead c = lstrip_by isspace s.
Proof.
  rewrite match_at_whitespace. destruct (isspace x); [|discriminate].
  destruct (star_ws_head (length s) s (Some x)) as (prev' & others & ->);
    [lia|].
  intros [= <-]. done.
Qed.

Lemma match_whitespace_none prev x s :
  match_at whitespace (prev, x :: s) = None -> isspace x = false.
Proof.
  rewrite match_at_whitespace. destruct (isspace x); [|done].
  destruct (star_ws_head (length s) s (Some x)) as (prev' & others & ->);
    [lia|].
  discriminate.
Qed.

(** The substitution of 'whitespace' by one space is [collapse_from]. *)
Lemma sub_whitespace_collapse s :
  (forall prev, sub_from whitespace [space] 0 prev s = collapse_from false s)
  /\ (forall prev,
        sub_from whitespace [space] (lead s) prev s = collapse_from true s).
Proof.
  induction s as [|x s [IH0 IH1]]; [done|].
  assert (Hzero : forall prev,
    sub_from whitespace [space] 0 prev (x :: s) = collapse_from false (x :: s)).
  { intros prev. cbn [sub_from collapse_from].
    match goal with |- context [match_at ?a ?b] =>
      destruct (match_at a b) as [c|] eqn:Hm end.
    - apply match_whitespace_ahead in Hm as [Hx Hc]. rewrite Hx, Hc.
      replace (length (x :: s) - length (lstrip_by isspace s))%nat
        with (S (lead s)).
      + simpl. by rewrite IH1.
      + rewrite <- lead_lstrip.
        assert (length (lstrip_by isspace s) <= length s)%nat.
        { clear. induction s as [|y s IH]; simpl; [lia|].
          destruct (isspace y); simpl; lia. }
        simpl. lia.
    - apply match_whitespace_none in Hm. rewrite Hm. by rewrite IH0. }
  split; [exact Hzero|].
  intros prev. cbn [lead]. destruct (isspace x) eqn:Hx.
  - cbn [sub_from collapse_from]. rewrite Hx. apply IH1.
  - rewrite Hzero. cbn [collapse_from]. by rewrite Hx.
Qed.

Lemma sub_whitespace s : sub whitespace [space] s = collapse_from false s.
Proof. apply sub_whitespace_collapse. Qed.

Lemma collapse_from_collapsed s :
  forall in_run,
    collapsed (collapse_from in_run s)
    /\ (in_run = true -> no_lead isspace (collapse_from in_run s)).
Proof.
  induction s as [|x s IH]; intros in_run; [done|].
  cbn [collapse_from]. destruct (isspace x) eqn:Hx.
  - destruct in_run.
    + apply IH.
    + split; [|discriminate]. cbn [collapsed]. split; [|apply IH].
      intros _. split; [done|]. by apply IH.
  - split; [|intros _; exact Hx]. cbn [collapsed]. split; [|apply IH].
    rewrite Hx. discriminate.
Qed.

Lemma collapsed_fixed s :
  collapsed s ->
  collapse_from false s = s
  /\ (no_lead isspace s -> collapse_from true s = s).
Proof.
  induction s as [|x s IH]; [done|].
  intros [Hx Hs]. destruct (IH Hs) as [IH0 IH1].
  cbn [collapse_from]. destruct (isspace x) eqn:Ex.
  - destruct (Hx eq_refl) as [-> Hl]. split.
    + by rewrite (IH1 Hl).
    + simpl. rewrite Ex. discriminate.
  - split; [by rewrite IH0|]. intros _. by rewrite IH0.
Qed.

Lemma collapsed_app_l s t : collapsed (s ++ t) -> collapsed s.
Proof.
  induction s as [|x s IH]; [done|].
  intros [Hx Hs]. split; [|by apply IH].
  intros Ex. destruct (Hx Ex) as [-> Hl]. split; [done|].
  destruct s; [done|exact Hl].
Qed.

Lemma collapsed_app_r s t : collapsed (s ++ t) -> collapsed t.
Proof. induction s as [|x s IH]; [done|]. intros [_ Hs]. by apply IH. Qed.

Lemma lstrip_by_suffix p s : exists t, s = t ++ lstrip_by p s.
Proof.
  induction s as [|x s [t IH]]; [by exists []|]. simpl.
  destruct (p x); [|by exists []].
  exists (x :: t). simpl. by rewrite <- IH.
Qed.

Lemma rstrip_by_prefix p s : exists t, s = rstrip_by p s ++ t.
Proof.
  induction s as [|x s [t IH]]; [by exists []|]. simpl.
  destruct (rstrip_by p s) as [|y r] eqn:E.
  - destruct (p x); [by exists (x :: s)|].
    exists s. done.
  - exists t. simpl in *. by rewrite <- IH.
Qed.

Lemma collapsed_lstrip_by p s : collapsed s -> collapsed (lstrip_by p s).
Proof.
  intros Hs. destruct (lstrip_by_suffix p s) as [t E].
  rewrite E in Hs. by apply collapsed_app_r in Hs.
Qed.

Lemma collapsed_rstrip_by p s : collapsed s -> collapsed (rstrip_by p s).
Proof.
  intros Hs. destruct (rstrip_by_prefix p s) as [t E].
  rewrite E in Hs. by apply collapsed_app_l in Hs.
Qed.

(** The result of cleaning has its whitespace collapsed and carries none of
    the trailing characters the last step strips. *)
Lemma clean_heading_text_collapsed text :
  collapsed (clean_heading_text text).
Proof.
  unfold clean_heading_text.
  destruct (negb (nonempty text) || negb (nonempty (strip text))); [done|].
  unfold rstrip_chars. apply collapsed_rstrip_by.
  unfold strip at 1, rstrip, lstrip.
  apply collapsed_rstrip_by, collapsed_lstrip_by.
  rewrite sub_whitespace. apply collapse_from_collapsed.
Qed.

Lemma clean_heading_text_rstripped text :
  rstrip_chars (py ".-_:") (clean_heading_text text) = clean_heading_text text.
Proof.
  unfold clean_heading_text.
  destruct (negb (nonempty text) || negb (nonempty (strip text))); [done|].
  apply rstrip_by_idem.
Qed.

End CleanFacts.

(** C5, as stated, fails: cleaning "1 2 3 foo" gives "3 foo" (each of the
    two numbering patterns removes one leading number), and cleaning that
    again gives "foo". *)
Lemma clean_not_idempotent_counterexample :
  clean_heading_text numbered_words = py "3 foo"
  /\ clean_heading_text (clean_heading_text numbered_words) = py "foo"
  /\ clean_heading_text (clean_heading_text numbered_words)
     <> clean_heading_text numbered_words.
Proof.
  repeat split; try (vm_compute; reflexivity).
  intros E. vm_compute in E. discriminate.
Qed.

(** C5 (amended): cleaning is idempotent on every input whose cleaned text
    leaves nothing for a second pass to remove: when the cleaned text is
    trimmed (the trailing-punctuation strip has exposed no whitespace) and
    none of the three prefix patterns ('section_numbers', 'numbering',
    'bullets') matches it, cleaning it again returns it unchanged. *)
Theorem clean_heading_text_idempotent_when_settled
  `{UnicodeData} (x : str) :
  strip (clean_heading_text x) = clean_heading_text x ->
  rmatch section_numbers (clean_heading_text x) = None ->
  rmatch numbering (clean_heading_text x) = None ->
  rmatch bullets (clean_heading_text x) = None ->
  clean_heading_text (clean_heading_text x) = clean_heading_text x.
Proof.
  pose proof (clean_heading_text_collapsed x) as Hcol.
  pose proof (clean_heading_text_rstripped x) as Hrs.
  set (y := clean_heading_text x) in *.
  intros Hstrip Hsec Hnum Hbul.
  unfold clean_heading_text at 1.
  destruct (negb (nonempty y) || negb (nonempty (strip y))) eqn:Hempty.
  - rewrite Hstrip, orb_diag in Hempty. by destruct y.
  - rewrite Hstrip.
    rewrite (sub_section_numbers_no_match y Hsec), Hstrip.
    rewrite (sub_numbering_no_match y Hnum), Hstrip.
    rewrite (sub_bullets_no_match y Hbul), Hstrip.
    rewrite sub_whitespace, (proj1 (collapsed_fixed y Hcol)), Hstrip.
    exact Hrs.
Qed.

Lemma clean_heading_text_idempotent_when_settled_witness :
  clean_heading_text numbered_heading = py "Background Information"
  /\ clean_heading_text (clean_heading_text numbered_heading)
     = clean_heading_text numbered_heading.
Proof.
  split; [vm_compute; reflexivity|].
  apply (clean_heading_text_idempotent_when_settled numbered_heading);
    vm_compute; reflexivity.
Defined.

(** ** Font statistics: the median *)

Section MedianFacts.

Lemma Qltb_lt a b : Qltb a b = true <-> (a < b)%Q.
Proof.
  unfold Qltb. rewrite negb_true_iff.
  split.
  - intros Hn. apply Qnot_le_lt. intros Hle.
    apply Qle_bool_iff in Hle. congruence.
  - intros Hlt. destruct (Qle_bool b a) eqn:E; [|done].
    apply Qle_bool_iff in E. exfalso. by apply (Qlt_not_le _ _ Hlt).
Qed.

Lemma insert_sorted_perm x l : insert_sorted x l ≡ₚ x :: l.
Proof.
  induction l as [|y l IH]; simpl; [done|].
  destruct (Qle_bool x y); [done|].
  rewrite IH. apply Permutation_swap.
Qed.

Lemma np_sort_perm l : np_sort l ≡ₚ l.
Proof.
  induction l as [|x l IH]; simpl; [done|].
  rewrite insert_sorted_perm. by rewrite IH.
Qed.

Lemma np_sort_length l : length (np_sort l) = length l.
Proof. apply Permutation_length, np_sort_perm. Qed.

Lemma ascending_nil : ascending [].
Proof. intros i j a b _ Hi. by rewrite lookup_nil in Hi. Qed.

Lemma ascending_cons x l :
  (forall y, y ∈ l -> (x <= y)%Q) -> ascending l -> ascending (x :: l).
Proof.
  intros Hx Hl i j a b Hij Hi Hj.
  destruct j as [|j]; [lia|]. simpl in Hj.
  destruct i as [|i]; simpl in Hi.
  - injection Hi as <-. apply Hx. by apply list_elem_of_lookup_2 in Hj.
  - apply (Hl i j); [lia|done|done].
Qed.

Lemma ascending_inv x l :
  ascending (x :: l) -> (forall y, y ∈ l -> (x <= y)%Q) /\ ascending l.
Proof.
  intros Hs. split.
  - intros y Hy. apply list_elem_of_lookup_1 in Hy as [j Hj].
    apply (Hs 0%nat (S j)); [lia|done|done].
  - intros i j a b Hij Hi Hj. apply (Hs (S i) (S j)); [lia|done|done].
Qed.

Lemma insert_sorted_ascending x l :
  ascending l -> ascending (insert_sorted x l).
Proof.
  induction l as [|y l IH]; intros Hl; simpl.
  - apply ascending_cons; [|apply ascending_nil].
    intros z Hz. by apply not_elem_of_nil in Hz.
  - destruct (ascending_inv _ _ Hl) as [Hy Hl'].
    destruct (Qle_bool x y) eqn:E.
    + apply Qle_bool_iff in E. apply ascending_cons; [|done].
      intros z Hz. apply elem_of_cons in Hz as [->|Hz]; [done|].
      eapply Qle_trans; [exact E|by apply Hy].
    + apply ascending_cons; [|by apply IH].
      intros z Hz. rewrite insert_sorted_perm in Hz.
      apply elem_of_cons in Hz as [->|Hz]; [|by apply Hy].
      apply Qlt_le_weak, Qltb_lt. unfold Qltb. by rewrite E.
Qed.

Lemma np_sort_ascending l : ascending (np_sort l).
Proof.
  induction l as [|x l IH]; simpl.
  - apply ascending_nil.
  - by apply insert_sorted_ascending.
Qed.

Lemma count_lt_perm x l l' : l ≡ₚ l' -> count_lt x l = count_lt x l'.
Proof. intros Hp. unfold count_lt. by rewrite Hp. Qed.

Lemma count_le_perm x l l' : l ≡ₚ l' -> count_le x l = count_le x l'.
Proof. intros Hp. unfold count_le. by rewrite Hp. Qed.

Lemma count_lt_bound x l : (count_lt x l <= length l)%nat.
Proof. unfold count_lt. apply length_filter. Qed.

Lemma count_lt_none x l :
  (forall y, y ∈ l -> (x <= y)%Q) -> count_lt x l = 0%nat.
Proof.
  intros Hall. unfold count_lt. rewrite filter_none; [done|].
  intros y Hy Hlt. apply Qltb_lt in Hlt.
  by apply (Qlt_not_le _ _ Hlt), Hall.
Qed.

Lemma count_le_all x l :
  (forall y, y ∈ l -> (y <= x)%Q) -> count_le x l = length l.
Proof.
  intros Hall. unfold count_le. rewrite filter_all; [done|].
  intros y Hy. by apply Qle_bool_iff, Hall.
Qed.

(** In an ascending list the element at index [k] has rank [k]. *)
Lemma ascending_rank s k x :
  ascending s -> s !! k = Some x -> has_rank s k x.
Proof.
  intros Hs Hk.
  pose proof (take_drop_middle s k x Hk) as Hsplit.
  assert (Hlen : length (take k s) = k).
  { apply length_take_le. apply lookup_lt_Some in Hk. lia. }
  assert (Hbefore : forall y, y ∈ take k s -> (y <= x)%Q).
  { intros y Hy. apply list_elem_of_lookup_1 in Hy as [i Hi].
    pose proof (lookup_lt_Some _ _ _ Hi) as Hlt. rewrite Hlen in Hlt.
    rewrite lookup_take_lt in Hi by done.
    apply (Hs i k); done. }
  assert (Hafter : forall y, y ∈ drop (S k) s -> (x <= y)%Q).
  { intros y Hy. apply list_elem_of_lookup_1 in Hy as [i Hi].
    rewrite lookup_drop in Hi.
    apply (Hs k (S k + i)%nat); [lia|done|done]. }
  split; [|split].
  - apply list_elem_of_In. by apply list_elem_of_lookup_2 in Hk.
  - rewrite <- Hsplit. unfold count_lt.
    rewrite filter_app, length_app, filter_cons_False.
    + fold (count_lt x (take k s)). fold (count_lt x (drop (S k) s)).
      rewrite (count_lt_none _ _ Hafter).
      pose proof (count_lt_bound x (take k s)). lia.
    + intros Hlt. apply Qltb_lt in Hlt. by apply (Qlt_irrefl x).
  - rewrite <- Hsplit. unfold count_le.
    rewrite filter_app, length_app, filter_cons_True.
    + fold (count_le x (take k s)).
      rewrite (count_le_all _ _ Hbefore). simpl. lia.
    + apply Qle_bool_iff, Qle_refl.
Qed.

(** The sorted array holds the element of rank [k] at index [k]. *)
Lemma np_sort_rank l k :
  (k < length l)%nat ->
  exists x, np_sort l !! k = Some x /\ has_rank l k x.
Proof.
  intros Hk. rewrite <- np_sort_length in Hk.
  apply lookup_lt_is_Some_2 in Hk as [x Hx].
  exists x. split; [done|].
  destruct (ascending_rank _ _ _ (np_sort_ascending l) Hx) as (Hin & Hlt & Hle).
  split; [|split].
  - apply list_elem_of_In. rewrite <- (np_sort_perm l).
    by apply list_elem_of_In.
  - by rewrite <- (count_lt_perm x _ _ (np_sort_perm l)).
  - by rewrite <- (count_le_perm x _ _ (np_sort_perm l)).
Qed.

(** Rank determines the value: the median is well defined. *)
Lemma has_rank_unique l k a b :
  has_rank l k a -> has_rank l k b -> (a == b)%Q.
Proof.
  assert (Hle : forall a b, has_rank l k a -> has_rank l k b -> (a <= b)%Q).
  { clear. intros a b (_ & Ha & _) (_ & _ & Hb).
    apply Qnot_lt_le. intros Hlt.
    assert (count_le b l <= count_lt a l)%nat; [|lia].
    unfold count_le, count_lt. apply filter_length_mono.
    intros y Hy. apply Qle_bool_iff in Hy. apply Qltb_lt.
    eapply Qle_lt_trans; done. }
  intros Ha Hb. apply Qle_antisym; by apply Hle.
Qed.

Lemma np_mean_one a : (np_mean [a] == a)%Q.
Proof. unfold np_mean, np_sum. simpl. field. Qed.

Lemma np_mean_two a b : (np_mean [a; b] == (a + b) / 2)%Q.
Proof. unfold np_mean, np_sum. simpl. field. Qed.

Lemma take_1_drop (s : list Q) i x :
  s !! i = Some x -> take 1 (drop i s) = [x].
Proof.
  revert i. induction s as [|a s IH]; intros [|i] Hi; simpl in *; try done.
  - by injection Hi as ->.
  - by apply IH.
Qed.

Lemma take_2_drop (s : list Q) i x y :
  s !! i = Some x -> s !! S i = Some y -> take 2 (drop i s) = [x; y].
Proof.
  revert i. induction s as [|a s IH]; intros [|i] Hi Hj; simpl in *; try done.
  - injection Hi as ->. f_equal. by apply (take_1_drop s 0%nat).
  - by apply IH.
Qed.

Lemma np_median_is_median l : l <> [] -> is_median l (np_median l).
Proof.
  intros Hne. unfold is_median, np_median.
  assert (Hpos : (0 < length l)%nat) by (destruct l; simpl; [done|lia]).
  destruct (Nat.even (length l)) eqn:Heven.
  - apply Nat.even_spec in Heven as [m Hm].
    assert (Hdiv : (length l / 2 = m)%nat).
    { rewrite Hm, Nat.mul_comm. apply Nat.div_mul. lia. }
    rewrite Hdiv.
    destruct (np_sort_rank l (m - 1)) as (a & Ha & Hra); [lia|].
    destruct (np_sort_rank l m) as (b & Hb & Hrb); [lia|].
    exists a, b. split; [done|]. split; [done|].
    rewrite (take_2_drop _ _ a b Ha); [apply np_mean_two|].
    replace (S (m - 1)) with m by lia. done.
  - assert (Hodd : Nat.odd (length l) = true)
      by (rewrite <- Nat.negb_even, Heven; done).
    apply Nat.odd_spec in Hodd as [m Hm].
    assert (Hdiv : (length l / 2 = m)%nat).
    { rewrite Hm. rewrite Nat.add_comm, Nat.mul_comm.
      rewrite Nat.div_add; [simpl; lia|lia]. }
    rewrite Hdiv.
    destruct (np_sort_rank l m) as (a & Ha & Hra); [lia|].
    exists a. split; [done|].
    rewrite (take_1_drop _ _ a Ha). apply np_mean_one.
Qed.

End MedianFacts.

(** C2: on the empty sequence the analysis returns the degenerate result
    with [body_size = 12.0] and empty collections; on every non-empty
    sequence its [body_size] is the median of the span font sizes: the
    middle element by rank, or the mean of the two middle elements when the
    count is even. *)
Theorem body_size_is_median (blocks : list Block) :
  (blocks = [] ->
   body_size (analyze_font_distribution blocks) = 12 # 1
   /\ sizes (analyze_font_distribution blocks) = []
   /\ percentiles (analyze_font_distribution blocks) = ∅)
  /\ (blocks <> [] ->
      sizes (analyze_font_distribution blocks) = map font_size blocks
      /\ is_median (map font_size blocks)
           (body_size (analyze_font_distribution blocks))).
Proof.
  split.
  - intros ->. done.
  - intros Hne. destruct blocks as [|b bs]; [done|].
    split; [done|].
    apply np_median_is_median. discriminate.
Qed.

Lemma body_size_is_median_witness :
  body_size (analyze_font_distribution []) = 12 # 1
  /\ (body_size (analyze_font_distribution four_sizes) == 12 # 1)%Q
  /\ is_median (map font_size four_sizes)
       (body_size (analyze_font_distribution four_sizes)).
Proof.
  split; [exact (proj1 (proj1 (body_size_is_median []) eq_refl))|].
  split; [vm_compute; reflexivity|].
  exact (proj2 (proj2 (body_size_is_median four_sizes)
                  ltac:(discriminate))).
Defined.

(* ===================================================================== *)
(** * Further properties of the reader *)
(* ===================================================================== *)

Lemma flag_set_testbit flags k :
  0 <= k -> flag_set flags (2 ^ k) = Z.testbit flags k.
Proof.
  intros Hk. unfold flag_set.
  destruct (Z.testbit flags k) eqn:Hb.
  - apply negb_true_iff, Z.eqb_neq. intros E.
    assert (Z.testbit (Z.land flags (2 ^ k)) k = false)
      by (rewrite E; apply Z.bits_0).
    rewrite Z.land_spec, Hb, Z.pow2_bits_true in H by done. discriminate.
  - apply negb_false_iff, Z.eqb_eq. apply Z.bits_inj'. intros i Hi.
    rewrite Z.land_spec, Z.bits_0, Z.pow2_bits_eqb by done.
    destruct (Z.eqb_spec k i) as [->|]; [by rewrite Hb|apply andb_false_r].
Qed.

Lemma block_of_span_fields ph pw span b :
  block_of_span ph pw span = Some b ->
  Reader.text b = strip (default [] (span_text span))
  /\ nonempty (Reader.text b) = true
  /\ page_height b = ph /\ page_width b = pw
  /\ font_size b = default (12 # 1) (span_size span)
  /\ is_bold b = flag_set (flags b) 16
  /\ is_italic b = flag_set (flags b) 2
  /\ Reader.page b = None.
Proof.
  unfold block_of_span.
  destruct (nonempty (strip (default [] (span_text span)))) eqn:Hn;
    simpl; [|discriminate].
  intros [= <-]. simpl. done.
Qed.

(** X1: every block extracted from a page has a non-empty, trimmed text,
    carries the page's height and width, and has [is_bold] and [is_italic]
    equal to bit 4 and bit 1 of its flags, as [is_bold] and [is_italic] of
    the module compute them; it has no page number yet. *)
Theorem extracted_block_invariants (p : Page) (b : Block) :
  b ∈ extract_blocks_from_page p ->
  Reader.text b <> []
  /\ strip (Reader.text b) = Reader.text b
  /\ page_height b = rect_height p
  /\ page_width b = rect_width p
  /\ is_bold b = Z.testbit (flags b) 4
  /\ is_italic b = Z.testbit (flags b) 1
  /\ is_bold b = is_bold_flags (flags b)
  /\ is_italic b = is_italic_flags (flags b)
  /\ Reader.page b = None.
Proof.
  intros Hb. apply extract_blocks_from_page_inv in Hb as (span & Hs).
  apply block_of_span_fields in Hs
    as (Ht & Hn & Hh & Hw & _ & Hbold & Hital & Hp).
  repeat split; try done.
  - intros E. rewrite E in Hn. discriminate.
  - rewrite Ht. apply strip_idem.
  - rewrite Hbold. apply (flag_set_testbit _ 4). lia.
  - rewrite Hital. apply (flag_set_testbit _ 1). lia.
Qed.

Lemma extracted_block_invariants_witness :
  exists b,
    b ∈ extract_blocks_from_page form_page
    /\ Reader.text b <> [] /\ is_bold b = Z.testbit (flags b) 4.
Proof.
  eexists. split; [vm_compute; apply list_elem_of_here|].
  pose proof (extracted_block_invariants form_page _
                ltac:(vm_compute; apply list_elem_of_here))
    as (Ht & _ & _ & _ & Hb & _).
  split; [exact Ht|exact Hb].
Defined.

Lemma blocks_from_page_range n ps b :
  b ∈ blocks_from n ps ->
  exists k, Reader.page b = Some k /\ n <= k < n + Z.of_nat (length ps).
Proof.
  revert n. induction ps as [|p ps IH]; intros n; simpl.
  - intros Hin. by apply not_elem_of_nil in Hin.
  - intros Hin. apply elem_of_app in Hin as [Hin|Hin].
    + apply list_elem_of_fmap in Hin as (b0 & -> & _).
      exists n. split; [done|lia].
    + apply IH in Hin as (k & Hp & Hk). exists k. split; [done|lia].
Qed.

Lemma blocks_from_ordered n ps i j a b :
  (i < j)%nat ->
  blocks_from n ps !! i = Some a -> blocks_from n ps !! j = Some b ->
  page_or_0 a <= page_or_0 b.
Proof.
  revert n i j. induction ps as [|p ps IH]; intros n i j Hij; simpl.
  - by rewrite lookup_nil.
  - set (first := map (set_page n) (extract_blocks_from_page p)).
    intros Hi Hj.
    assert (Hfirst : forall c, c ∈ first -> page_or_0 c = n).
    { intros c Hc. apply list_elem_of_fmap in Hc as (c0 & -> & _). done. }
    assert (Hlater : forall c, c ∈ blocks_from (n + 1) ps -> n < page_or_0 c).
    { intros c Hc. apply blocks_from_page_ge in Hc as (k & Hk & Hp).
      unfold page_or_0. rewrite Hp. simpl. lia. }
    apply lookup_app_Some in Hi as [Hi|[Hli Hi]];
      apply lookup_app_Some in Hj as [Hj|[Hlj Hj]].
    + apply list_elem_of_lookup_2 in Hi, Hj.
      rewrite (Hfirst _ Hi), (Hfirst _ Hj). lia.
    + apply list_elem_of_lookup_2 in Hi, Hj.
      rewrite (Hfirst _ Hi). pose proof (Hlater _ Hj). lia.
    + apply lookup_lt_Some in Hj. lia.
    + apply (IH (n + 1) (i - length first)%nat (j - length first)%nat);
        [lia|done|done].
Qed.

(** X2: in the list [get_text_blocks_vectorized] returns, every block has
    a page number inside [0, page count), page numbers never decrease along
    the list, and the feature matrix has one row per block. *)
Theorem vectorized_blocks_page_order (ps : list Page) :
  let all_blocks := snd (get_text_blocks_vectorized ps) in
  (forall b, b ∈ all_blocks ->
     exists k, Reader.page b = Some k /\ 0 <= k < Z.of_nat (length ps))
  /\ (forall i j a b,
        (i < j)%nat -> all_blocks !! i = Some a -> all_blocks !! j = Some b ->
        page_or_0 a <= page_or_0 b)
  /\ length (fst (get_text_blocks_vectorized ps)) = length all_blocks.
Proof.
  unfold get_text_blocks_vectorized. simpl. split; [|split].
  - intros b Hb. apply blocks_from_page_range in Hb as (k & Hp & Hk).
    exists k. split; [done|lia].
  - intros i j a b. apply blocks_from_ordered.
  - apply length_map.
Qed.

(** X3: when [get_title_from_metadata] returns a title, it is non-empty and
    trimmed; it raises exactly when the document is truthy, its metadata
    dictionary is non-empty and the ['title'] entry is [None]. *)
Theorem metadata_title_behaviour (r : PDFReader) :
  (forall t, get_title_from_metadata r = Ok (Some t) ->
             t <> [] /\ strip t = t)
  /\ (get_title_from_metadata r = Raised
      <-> truth (doc r) = true
          /\ exists m, metadata (doc r) = Some m /\ m <> ∅
                       /\ m !! "title"%string = Some None).
Proof.
  unfold get_title_from_metadata. split.
  - intros t.
    destruct (truth (doc r)); [|discriminate].
    destruct (metadata (doc r)) as [m|]; [|discriminate].
    destruct (bool_decide (m = ∅)); [discriminate|].
    destruct (default (Some []) (m !! "title"%string)) as [t0|];
      [|discriminate].
    destruct (nonempty (strip t0)) eqn:Hn; intros [= <-].
    split; [|apply strip_idem]. intros E. rewrite E in Hn. discriminate.
  - destruct (truth (doc r)); [|split; [discriminate|by intros [? _]]].
    destruct (metadata (doc r)) as [m|];
      [|split; [discriminate|by intros (_ & m & ? & _)]].
    destruct (bool_decide_reflect (m = ∅)) as [->|Hne].
    { split; [discriminate|]. intros (_ & m & Hm' & Hm & _). congruence. }
    destruct (m !! "title"%string) as [[t0|]|] eqn:Ht; simpl.
    + split; [discriminate|]. intros (_ & m' & Hm' & _ & Ht').
      injection Hm' as Hm'. subst m'.
      pose proof (eq_trans (eq_sym Ht) Ht') as E. discriminate E.
    + split; [|done]. intros _. split; [done|]. by exists m.
    + split; [discriminate|]. intros (_ & m' & Hm' & _ & Ht').
      injection Hm' as Hm'. subst m'.
      pose proof (eq_trans (eq_sym Ht) Ht') as E. discriminate E.
Qed.

Lemma metadata_title_behaviour_witness :
  get_title_from_metadata titled_reader = Ok (Some (py "Annual Report"))
  /\ py "Annual Report" <> []
  /\ strip (py "Annual Report") = py "Annual Report".
Proof.
  assert (Hrun : get_title_from_metadata titled_reader
                 = Ok (Some (py "Annual Report")))
    by (vm_compute; reflexivity).
  split; [exact Hrun|].
  exact (proj1 (metadata_title_behaviour titled_reader) _ Hrun).
Defined.

(** X4: [get_page] returns the page stored at [page_num] exactly when
    [0 <= page_num < page count]; for every other index, negative ones
    included, it raises. *)
Theorem get_page_bounds (r : PDFReader) (page_num : Z) :
  (0 <= page_num < Z.of_nat (get_page_count r) ->
   exists p, get_page r page_num = Ok p
             /\ pages r !! Z.to_nat page_num = Some p)
  /\ (~ (0 <= page_num < Z.of_nat (get_page_count r)) ->
      get_page r page_num = Raised).
Proof.
  unfold get_page, get_page_count. split.
  - intros [H0 H1].
    replace (0 <=? page_num) with true by (symmetry; by apply Z.leb_le).
    replace (page_num <? Z.of_nat (length (pages r))) with true
      by (symmetry; by apply Z.ltb_lt).
    simpl.
    destruct (lookup_lt_is_Some_2 (pages r) (Z.to_nat page_num)) as [p Hp];
      [lia|].
    exists p. by rewrite Hp.
  - intros Hout.
    destruct (Z.leb_spec 0 page_num); [|done].
    destruct (Z.ltb_spec page_num (Z.of_nat (length (pages r)))); [|done].
    lia.
Qed.

Lemma get_page_bounds_witness :
  get_page form_reader 0 = Ok form_page
  /\ get_page form_reader (-1) = Raised
  /\ get_page form_reader 1 = Raised.
Proof.
  destruct (get_page_bounds form_reader 0) as [Hin _].
  destruct (Hin ltac:(unfold get_page_count; simpl; lia)) as (p & Hp & Hl).
  split; [rewrite Hp; change (Some form_page = Some p) in Hl; congruence|].
  split.
  - apply (proj2 (get_page_bounds form_reader (-1))).
    unfold get_page_count. simpl. lia.
  - apply (proj2 (get_page_bounds form_reader 1)).
    unfold get_page_count. simpl. lia.
Defined.

(* ===================================================================== *)
(** * Further properties of the font statistics *)
(* ===================================================================== *)

Lemma np_sort_lookup_in l k x : np_sort l !! k = Some x -> In x l.
Proof.
  intros Hk. apply list_elem_of_In. rewrite <- (np_sort_perm l).
  by apply list_elem_of_lookup_2 in Hk.
Qed.

(** The two shapes of [np.median]: odd and even length. *)
Lemma np_median_cases l :
  l <> [] ->
  (exists m a,
     length l = (2 * m + 1)%nat /\ np_sort l !! m = Some a
     /\ (np_median l == a)%Q)
  \/ (exists m a b,
        length l = (2 * m)%nat /\ (1 <= m)%nat
        /\ np_sort l !! (m - 1)%nat = Some a /\ np_sort l !! m = Some b
        /\ (np_median l == (a + b) / 2)%Q).
Proof.
  intros Hne. unfold np_median.
  assert (Hpos : (0 < length l)%nat) by (destruct l; simpl; [done|lia]).
  destruct (Nat.even (length l)) eqn:Heven.
  - right. apply Nat.even_spec in Heven as [m Hm].
    assert (Hdiv : (length l / 2 = m)%nat).
    { rewrite Hm, Nat.mul_comm. apply Nat.div_mul. lia. }
    rewrite Hdiv.
    destruct (np_sort_rank l (m - 1)) as (a & Ha & _); [lia|].
    destruct (np_sort_rank l m) as (b & Hb & _); [lia|].
    exists m, a, b. repeat split; try done; [lia|].
    rewrite (take_2_drop _ _ a b Ha); [apply np_mean_two|].
    replace (S (m - 1)) with m by lia. done.
  - left.
    assert (Hodd : Nat.odd (length l) = true)
      by (rewrite <- Nat.negb_even, Heven; done).
    apply Nat.odd_spec in Hodd as [m Hm].
    assert (Hdiv : (length l / 2 = m)%nat).
    { rewrite Hm. rewrite Nat.add_comm, Nat.mul_comm.
      rewrite Nat.div_add; [simpl; lia|lia]. }
    rewrite Hdiv.
    destruct (np_sort_rank l m) as (a & Ha & _); [lia|].
    exists m, a. repeat split; try done.
    rewrite (take_1_drop _ _ a Ha). apply np_mean_one.
Qed.

Lemma run_lengths_total s :
  foldr Nat.add 0%nat (map snd (run_lengths s)) = length s.
Proof.
  induction s as [|x s IH]; [done|]. simpl.
  destruct (run_lengths s) as [|[y n] r]; simpl in *; [lia|].
  destruct (Qeq_bool x y); simpl; lia.
Qed.

Lemma run_lengths_increasing s :
  ascending s ->
  strictly_increasing (map fst (run_lengths s))
  /\ match s, run_lengths s with
     | x :: _, (y, _) :: _ => (x == y)%Q
     | [], [] => True
     | _, _ => False
     end.
Proof.
  induction s as [|x s IH]; intros Hs; [done|].
  destruct (ascending_inv _ _ Hs) as [Hx Hs'].
  destruct (IH Hs') as [Hinc Hhead]. simpl.
  destruct s as [|x' s]; [done|].
  destruct (run_lengths (x' :: s)) as [|[y n] r] eqn:Hr; [done|].
  assert (Hxy : (x <= y)%Q).
  { rewrite <- Hhead. apply Hx, list_elem_of_here. }
  destruct (Qeq_bool x y) eqn:E.
  - apply Qeq_bool_iff in E. split; [|reflexivity].
    simpl in *. destruct r as [|[z k] r]; [done|].
    simpl in *. destruct Hinc as [Hyz Hrest]. split; [|done].
    by rewrite E.
  - split; [|reflexivity]. simpl in *. split; [|done].
    apply Qle_lt_or_eq in Hxy as [Hlt|Heq]; [done|].
    apply Qeq_bool_iff in Heq. congruence.
Qed.

(** X6: for a non-empty sequence of spans, the counts of ['size_counts']
    add up to the number of spans, its keys are ['unique_sizes'], and these
    strictly increase (so no size is listed twice). *)
Theorem size_counts_partition (blocks : list Block) :
  blocks <> [] ->
  exists counts,
    size_counts (analyze_font_distribution blocks) = Some counts
    /\ unique_sizes (analyze_font_distribution blocks) = Some (map fst counts)
    /\ foldr Nat.add 0%nat (map snd counts) = length blocks
    /\ strictly_increasing (map fst counts).
Proof.
  intros Hne. destruct blocks as [|b bs]; [done|].
  exists (np_unique_counts (map font_size (b :: bs))).
  split; [done|]. split; [done|]. unfold np_unique_counts. split.
  - rewrite run_lengths_total, np_sort_length. apply length_map.
  - apply run_lengths_increasing, np_sort_ascending.
Qed.

Lemma size_counts_partition_witness :
  exists counts,
    size_counts (analyze_font_distribution four_sizes) = Some counts
    /\ foldr Nat.add 0%nat (map snd counts) = 4%nat
    /\ strictly_increasing (map fst counts).
Proof.
  destruct (size_counts_partition four_sizes ltac:(discriminate))
    as (counts & Hc & _ & Ht & Hi).
  exists counts. split; [exact Hc|]. split; [exact Ht|exact Hi].
Defined.

(** X7: for a non-empty sequence of spans, [body_size] lies between two of
    the span font sizes: the median never leaves the range of the data. *)
Theorem body_size_within_sizes (blocks : list Block) :
  blocks <> [] ->
  exists lo hi,
    In lo (map font_size blocks) /\ In hi (map font_size blocks)
    /\ (lo <= body_size (analyze_font_distribution blocks))%Q
    /\ (body_size (analyze_font_distribution blocks) <= hi)%Q.
Proof.
  intros Hne. destruct blocks as [|b0 bs]; [done|].
  set (l := map font_size (b0 :: bs)).
  change (body_size (analyze_font_distribution (b0 :: bs)))
    with (np_median l).
  destruct (np_median_cases l ltac:(discriminate))
    as [(m & a & _ & Ha & Hmed)|(m & a & b & _ & Hm & Ha & Hb & Hmed)].
  - exists a, a. pose proof (np_sort_lookup_in _ _ _ Ha).
    repeat split; try done; rewrite Hmed; apply Qle_refl.
  - assert (Hab : (a <= b)%Q).
    { apply (np_sort_ascending l (m - 1)%nat m); [lia|done|done]. }
    exists a, b.
    pose proof (np_sort_lookup_in _ _ _ Ha).
    pose proof (np_sort_lookup_in _ _ _ Hb).
    repeat split; try done; rewrite Hmed.
    + apply Qle_shift_div_l; [reflexivity|].
      assert (E : (a * 2 == a + a)%Q) by ring. rewrite E.
      by apply Qplus_le_r.
    + apply Qle_shift_div_r; [reflexivity|].
      assert (E : (b * 2 == b + b)%Q) by ring. rewrite E.
      by apply Qplus_le_l.
Qed.

Lemma body_size_within_sizes_witness :
  exists lo hi,
    In lo (map font_size four_sizes) /\ In hi (map font_size four_sizes)
    /\ (lo <= body_size (analyze_font_distribution four_sizes))%Q
    /\ (body_size (analyze_font_distribution four_sizes) <= hi)%Q.
Proof.
  exact (body_size_within_sizes four_sizes ltac:(discriminate)).
Defined.

(* ===================================================================== *)
(** * Further properties of the candidate filter *)
(* ===================================================================== *)

Section FilterMore.
Context `{UnicodeData}.

(** One round of the loop on a candidate that fails a check: nothing
    changes. *)
Lemma filter_loop_skip min_length max_length heading rest filtered seen :
  passes_checks min_length max_length heading = false ->
  filter_loop min_length max_length (heading :: rest) filtered seen
  = filter_loop min_length max_length rest filtered seen.
Proof.
  unfold passes_checks, raw_text. cbn [filter_loop].
  set (text := strip (default [] (htext heading))).
  destruct (nonempty text); simpl; [|done].
  destruct ((min_length <=? length text)%nat
            && (length text <=? max_length)%nat); simpl; [|done].
  destruct (matches page_numbers text || search copyright_text text);
    simpl; [done|].
  destruct (matches table_content text); simpl; [done|].
  destruct (Qltb _ _); simpl; [done|].
  destruct (nonempty (clean_heading_text text)); simpl; [discriminate|done].
Qed.

(** One round on a candidate that passes the checks. *)
Lemma filter_loop_pass min_length max_length heading rest filtered seen :
  passes_checks min_length max_length heading = true ->
  filter_loop min_length max_length (heading :: rest) filtered seen
  = if bool_decide (dedup_key heading ∈ seen)
    then filter_loop min_length max_length rest filtered seen
    else if has_form_word heading && (length filtered =? 0)%nat then []
    else filter_loop min_length max_length rest
           (filtered ++ [cleaned_copy heading])
           (seen ∪ {[dedup_key heading]}).
Proof.
  unfold passes_checks, dedup_key, has_form_word, cleaned_copy, raw_text.
  cbn [filter_loop].
  set (text := strip (default [] (htext heading))).
  destruct (nonempty text); simpl; [|discriminate].
  destruct ((min_length <=? length text)%nat
            && (length text <=? max_length)%nat); simpl; [|discriminate].
  destruct (matches page_numbers text || search copyright_text text);
    simpl; [discriminate|].
  destruct (matches table_content text); simpl; [discriminate|].
  destruct (Qltb _ _); simpl; [discriminate|].
  destruct (nonempty (clean_heading_text text)); simpl; [|discriminate].
  done.
Qed.

(** What the loop keeps: a subsequence of candidates that all pass the
    checks, with pairwise different keys that were not seen before. *)
Lemma filter_loop_kept min_length max_length headings :
  forall filtered seen,
  exists kept,
    sublist kept headings
    /\ filter_loop min_length max_length headings filtered seen
       = filtered ++ map cleaned_copy kept
    /\ Forall (fun h => passes_checks min_length max_length h = true) kept
    /\ NoDup (map dedup_key kept)
    /\ (forall h, h ∈ kept -> dedup_key h ∉ seen)
    /\ (filtered = [] ->
        match kept with h :: _ => has_form_word h = false | [] => True end).
Proof.
  induction headings as [|heading rest IH]; intros filtered seen.
  - exists []. simpl. rewrite app_nil_r.
    repeat split; try done; try constructor.
    intros h Hh. by apply not_elem_of_nil in Hh.
  - destruct (passes_checks min_length max_length heading) eqn:Hpass.
    + rewrite (filter_loop_pass _ _ _ _ _ _ Hpass).
      destruct (bool_decide_reflect (dedup_key heading ∈ seen)) as [Hseen|Hnew].
      * destruct (IH filtered seen) as (kept & Hsub & Heq & Hrest).
        exists kept. split; [by apply sublist_cons|done].
      * destruct (has_form_word heading && (length filtered =? 0)%nat)
          eqn:Hform.
        -- apply andb_true_iff in Hform as [_ Hlen].
           apply Nat.eqb_eq in Hlen. destruct filtered; [|discriminate].
           exists []. repeat split; try done; try constructor.
           ++ apply sublist_nil_l.
           ++ intros h Hh. by apply not_elem_of_nil in Hh.
        -- destruct (IH (filtered ++ [cleaned_copy heading])
                        (seen ∪ {[dedup_key heading]}))
             as (kept & Hsub & Heq & Hall & Hnd & Hfresh & _).
           exists (heading :: kept). repeat split.
           ++ by apply sublist_skip.
           ++ rewrite Heq. by rewrite <- app_assoc.
           ++ by constructor.
           ++ simpl. constructor; [|done].
              intros Hin. apply list_elem_of_fmap in Hin as (h & Hk & Hh).
              apply (Hfresh h Hh). rewrite <- Hk. set_solver.
           ++ intros h Hh. apply elem_of_cons in Hh as [->|Hh]; [done|].
              intros Hin. apply (Hfresh h Hh). set_solver.
           ++ intros ->. simpl in Hform. by rewrite andb_true_r in Hform.
    + rewrite (filter_loop_skip _ _ _ _ _ _ Hpass).
      destruct (IH filtered seen) as (kept & Hsub & Heq & Hrest).
      exists kept. split; [by apply sublist_cons|done].
Qed.

Lemma filter_heading_candidates_kept headings :
  exists kept,
    sublist kept headings
    /\ filter_heading_candidates headings = map cleaned_copy kept
    /\ Forall (fun h => passes_checks 3 200 h = true) kept
    /\ NoDup (map dedup_key kept)
    /\ match kept with h :: _ => has_form_word h = false | [] => True end.
Proof.
  unfold filter_heading_candidates, filter_heading_candidates_with.
  destruct headings as [|h hs].
  - exists []. repeat split; try done; constructor.
  - destruct (filter_loop_kept 3 200 (h :: hs) [] ∅)
      as (kept & Hsub & Heq & Hall & Hnd & _ & Hform).
    exists kept. repeat split; try done. by apply Hform.
Qed.

Lemma filter_loop_all_skipped min_length max_length pre rest filtered seen :
  Forall (fun h => passes_checks min_length max_length h = false) pre ->
  filter_loop min_length max_length (pre ++ rest) filtered seen
  = filter_loop min_length max_length rest filtered seen.
Proof.
  induction 1 as [|h pre Hh _ IH]; [done|].
  simpl app. by rewrite filter_loop_skip.
Qed.

End FilterMore.

(** X8: the filter never emits two headings with the same deduplication
    key (the trimmed lower-case cleaned text): the candidates it keeps form
    a subsequence of the input whose keys are pairwise different. *)
Theorem filter_output_has_distinct_keys
  `{UnicodeData} (headings : list Heading) :
  exists kept,
    sublist kept headings
    /\ filter_heading_candidates headings = map cleaned_copy kept
    /\ NoDup (map dedup_key kept).
Proof.
  destruct (filter_heading_candidates_kept headings)
    as (kept & Hsub & Heq & _ & Hnd & _).
  by exists kept.
Qed.

(** X9: every heading the filter emits comes from a candidate whose trimmed
    text has between 3 and 200 characters, is neither a page number nor a
    copyright line nor table content, has at least 30% alphabetic
    characters and a non-empty cleaned text; the emitted text is therefore
    at least two characters long. *)
Theorem filter_output_passed_checks
  `{UnicodeData} (headings : list Heading) (h' : Heading) :
  h' ∈ filter_heading_candidates headings ->
  exists h,
    h ∈ headings /\ h' = cleaned_copy h
    /\ (3 <= length (raw_text h) <= 200)%nat
    /\ matches page_numbers (raw_text h) = false
    /\ search copyright_text (raw_text h) = false
    /\ matches table_content (raw_text h) = false
    /\ (3 * length (raw_text h) <= 10 * count_alpha (raw_text h))%nat
    /\ clean_heading_text (raw_text h) <> []
    /\ exists t, htext h' = Some t /\ (2 <= length t)%nat.
Proof.
  destruct (filter_heading_candidates_kept headings)
    as (kept & Hsub & -> & Hall & _).
  intros Hin. apply list_elem_of_fmap in Hin as (h & -> & Hh).
  exists h. split; [by eapply elem_of_sublist|]. split; [done|].
  rewrite Forall_forall in Hall. specialize (Hall h Hh).
  unfold passes_checks in Hall.
  repeat (apply andb_true_iff in Hall as [Hall ?]).
  match goal with Hb : (_ <=? _)%nat && (_ <=? _)%nat = true |- _ =>
    apply andb_true_iff in Hb as [Hlo Hhi];
    apply Nat.leb_le in Hlo, Hhi end.
  match goal with Hb : negb (_ || _) = true |- _ =>
    apply negb_true_iff, orb_false_iff in Hb as [Hpn Hcr] end.
  match goal with Hb : negb (matches table_content _) = true |- _ =>
    apply negb_true_iff in Hb; rename Hb into Htc end.
  match goal with Hb : negb (Qltb _ _) = true |- _ =>
    apply negb_true_iff in Hb; rename Hb into Hratio end.
  match goal with Hb : nonempty (clean_heading_text _) = true |- _ =>
    rename Hb into Hclean end.
  repeat split; try done.
  - unfold Qltb in Hratio. apply negb_false_iff, Qle_bool_iff in Hratio.
    set (x := inject_Z (Z.of_nat (count_alpha (raw_text h)))) in *.
    set (y := inject_Z (Z.of_nat (length (raw_text h)))) in *.
    assert (Hy : (0 < y)%Q).
    { change 0%Q with (inject_Z 0). unfold y. rewrite <- Zlt_Qlt. lia. }
    pose proof (Qmult_le_compat_r _ _ y Hratio (Qlt_le_weak _ _ Hy)) as Hm.
    rewrite (Qmult_comm (x / y) y), Qmult_div_r in Hm
      by (intros E; rewrite E in Hy; discriminate).
    unfold Qle, x, y in Hm. simpl in Hm. rewrite Pos.mul_1_r in Hm. lia.
  - intros E. rewrite E in Hclean. discriminate.
  - eexists. split; [reflexivity|]. rewrite length_app.
    unfold raw_text in Hclean.
    destruct (clean_heading_text (strip (default [] (htext h))));
      [discriminate|]. simpl. lia.
Qed.

Lemma filter_output_passed_checks_witness :
  exists h' h,
    h' ∈ filter_heading_candidates two_headings
    /\ h ∈ two_headings
    /\ (3 <= length (raw_text h) <= 200)%nat
    /\ matches table_content (raw_text h) = false.
Proof.
  assert (Hin : cleaned_copy (heading_of "2.1 Overview")
                ∈ filter_heading_candidates two_headings)
    by (vm_compute; apply list_elem_of_here).
  destruct (filter_output_passed_checks two_headings _ Hin)
    as (h & Hh & _ & Hlen & _ & _ & Htc & _).
  exists (cleaned_copy (heading_of "2.1 Overview")), h. done.
Defined.

(** X10: the document-level suppression.  When the first candidate that
    passes the checks mentions a form word ('application', 'form', 'grant',
    'ltc'), the filter returns the empty list, whatever follows it; and in
    any non-empty output the first kept candidate mentions none. *)
Theorem filter_form_word_suppression
  `{UnicodeData} (pre : list Heading) (h : Heading) (rest : list Heading) :
  Forall (fun c => passes_checks 3 200 c = false) pre ->
  passes_checks 3 200 h = true ->
  (has_form_word h = true ->
   filter_heading_candidates (pre ++ h :: rest) = [])
  /\ (has_form_word h = false ->
      exists others,
        filter_heading_candidates (pre ++ h :: rest)
        = cleaned_copy h :: others).
Proof.
  intros Hpre Hpass.
  assert (Hrun : filter_heading_candidates (pre ++ h :: rest)
                 = filter_loop 3 200 (h :: rest) [] ∅).
  { unfold filter_heading_candidates, filter_heading_candidates_with.
    destruct (pre ++ h :: rest) eqn:E; [by destruct pre|].
    rewrite <- E. by apply filter_loop_all_skipped. }
  rewrite Hrun, (filter_loop_pass _ _ _ _ _ _ Hpass).
  destruct (bool_decide_reflect (dedup_key h ∈ (∅ : gset str)))
    as [Hin|_]; [set_solver|].
  split; intros Hform; rewrite Hform; cbn [andb length Nat.eqb]; [done|].
  destruct (filter_loop_spec 3 200 rest ([] ++ [cleaned_copy h])
              (∅ ∪ {[dedup_key h]})) as (kept & _ & ->).
  by exists (map cleaned_copy kept).
Qed.

Lemma filter_form_word_suppression_witness :
  passes_checks 3 200 (heading_of "Application form") = true
  /\ has_form_word (heading_of "Application form") = true
  /\ filter_heading_candidates form_headings = [].
Proof.
  assert (Hpass : passes_checks 3 200 (heading_of "Application form") = true)
    by (vm_compute; reflexivity).
  assert (Hform : has_form_word (heading_of "Application form") = true)
    by (vm_compute; reflexivity).
  split; [exact Hpass|]. split; [exact Hform|].
  exact (proj1 (filter_form_word_suppression [] _ [heading_of "Overview"]
                  (Forall_nil_2 _) Hpass) Hform).
Defined.

(* ===================================================================== *)
(** * Further properties of text cleaning and [is_heading_like] *)
(* ===================================================================== *)

Lemma rstrip_by_keeps_lead (p q : char -> bool) s :
  no_lead q s -> no_lead q (rstrip_by p s).
Proof.
  destruct s as [|c s]; simpl; [done|]. intros Hc.
  destruct (rstrip_by p s); [destruct (p c)|]; done.
Qed.

Lemma lstrip_by_length p s : (length (lstrip_by p s) <= length s)%nat.
Proof.
  induction s as [|x s IH]; simpl; [lia|]. destruct (p x); simpl; lia.
Qed.

Lemma rstrip_by_length p s : (length (rstrip_by p s) <= length s)%nat.
Proof.
  destruct (rstrip_by_prefix p s) as [t E].
  rewrite E at 2. rewrite length_app. lia.
Qed.

Lemma strip_length s : (length (strip s) <= length s)%nat.
Proof.
  unfold strip, rstrip, lstrip.
  pose proof (rstrip_by_length isspace (lstrip_by isspace s)).
  pose proof (lstrip_by_length isspace s). lia.
Qed.

Lemma collapse_from_length in_run s :
  (length (collapse_from in_run s) <= length s)%nat.
Proof.
  revert in_run. induction s as [|x s IH]; intros in_run; simpl; [lia|].
  destruct (isspace x), in_run; simpl;
    try (pose proof (IH true)); try (pose proof (IH false)); lia.
Qed.

Section CleanMore.
Context `{UnicodeData}.

(** Deleting matches never lengthens the text. *)
Lemma sub_from_delete_length r skip prev s :
  (length (sub_from r [] skip prev s) <= length s)%nat.
Proof.
  revert skip prev. induction s as [|x s IH]; intros skip prev; [done|].
  cbn [sub_from]. destruct skip as [|k].
  - match goal with |- context [match_at ?a ?b] =>
      destruct (match_at a b) as [c|] end.
    + destruct (length (x :: s) - length (ahead c))%nat.
      * simpl. pose proof (IH 0%nat (Some x)). lia.
      * simpl. pose proof (IH n (Some x)). lia.
    + simpl. pose proof (IH 0%nat (Some x)). lia.
  - simpl. pose proof (IH k (Some x)). lia.
Qed.

Lemma sub_delete_length r s : (length (sub r [] s) <= length s)%nat.
Proof. apply sub_from_delete_length. Qed.

Lemma clean_heading_text_blank x :
  strip x = [] -> clean_heading_text x = [].
Proof.
  intros E. unfold clean_heading_text. rewrite E. simpl.
  by rewrite orb_true_r.
Qed.

End CleanMore.

Lemma collapsed_lookup s i c :
  collapsed s -> s !! i = Some c -> isspace c = true ->
  c = space /\ forall d, s !! S i = Some d -> isspace d = false.
Proof.
  revert i. induction s as [|x s IH]; intros i Hs Hi Hc; [done|].
  destruct Hs as [Hx Hs]. destruct i as [|i]; simpl in *.
  - injection Hi as ->. destruct (Hx Hc) as [-> Hl]. split; [done|].
    intros d Hd. destruct s as [|y s]; [done|]. simpl in *. congruence.
  - by apply IH.
Qed.

(** X11: the shape of a cleaned text.  It does not begin with whitespace;
    every whitespace character in it is a plain space and is never followed
    by another whitespace character (a single space may still end the
    text, left behind when trailing punctuation is stripped); it does not
    end in '.', '-', '_' or ':'; and a blank input is cleaned to the empty
    string. *)
Theorem clean_heading_text_normal_form `{UnicodeData} (x : str) :
  no_lead isspace (clean_heading_text x)
  /\ collapsed (clean_heading_text x)
  /\ (forall i c,
        clean_heading_text x !! i = Some c -> isspace c = true ->
        c = space
        /\ forall d, clean_heading_text x !! S i = Some d ->
                     isspace d = false)
  /\ no_trail (fun c => existsb (N.eqb c) (py ".-_:")) (clean_heading_text x)
  /\ (strip x = [] -> clean_heading_text x = []).
Proof.
  split; [|split; [apply clean_heading_text_collapsed|split; [|split]]].
  - unfold clean_heading_text.
    destruct (negb (nonempty x) || negb (nonempty (strip x))); [done|].
    apply rstrip_by_keeps_lead, strip_no_lead.
  - intros i c. apply collapsed_lookup, clean_heading_text_collapsed.
  - unfold clean_heading_text.
    destruct (negb (nonempty x) || negb (nonempty (strip x))); [done|].
    apply rstrip_by_no_trail.
  - apply clean_heading_text_blank.
Qed.

(** X12: cleaning never lengthens a text. *)
Theorem clean_heading_text_not_longer `{UnicodeData} (x : str) :
  (length (clean_heading_text x) <= length x)%nat.
Proof.
  unfold clean_heading_text.
  destruct (negb (nonempty x) || negb (nonempty (strip x))); [simpl; lia|].
  unfold rstrip_chars.
  set (s0 := strip x).
  set (s1 := strip (sub section_numbers [] s0)).
  set (s2 := strip (sub numbering [] s1)).
  set (s3 := strip (sub bullets [] s2)).
  set (s4 := strip (sub whitespace [space] s3)).
  pose proof (strip_length x).
  pose proof (strip_length (sub section_numbers [] s0)).
  pose proof (sub_delete_length section_numbers s0).
  pose proof (strip_length (sub numbering [] s1)).
  pose proof (sub_delete_length numbering s1).
  pose proof (strip_length (sub bullets [] s2)).
  pose proof (sub_delete_length bullets s2).
  pose proof (strip_length (sub whitespace [space] s3)).
  assert (length (sub whitespace [space] s3) <= length s3)%nat
    by (rewrite sub_whitespace; apply collapse_from_length).
  pose proof (rstrip_by_length
                (fun c => existsb (N.eqb c) (py ".-_:")) s4).
  unfold s4, s3, s2, s1, s0 in *. lia.
Qed.

(** X13: cleaning depends on the trimmed text only: surrounding
    whitespace of the input makes no difference. *)
Theorem clean_heading_text_ignores_margins `{UnicodeData} (x : str) :
  clean_heading_text (strip x) = clean_heading_text x.
Proof.
  unfold clean_heading_text. rewrite strip_idem.
  destruct (nonempty (strip x)) eqn:Hs.
  - destruct x as [|c x]; [discriminate|]. simpl. done.
  - simpl. by rewrite !orb_true_r.
Qed.

(** X14: [is_heading_like] does not depend on the flags: it accepts
    exactly the spans whose font size reaches [body_size * threshold] and
    whose trimmed text has at most 100 characters. *)
Theorem is_heading_like_ignores_flags
  (text : str) (font_size body_size threshold : Q) (flags flags' : Z) :
  is_heading_like text font_size body_size flags threshold
  = is_heading_like text font_size body_size flags' threshold
  /\ (is_heading_like text font_size body_size flags threshold = true
      <-> (body_size * threshold <= font_size)%Q
          /\ (length (strip text) <= 100)%nat).
Proof.
  rewrite !is_heading_like_spec. split; [done|].
  rewrite andb_true_iff, Qle_bool_iff, Nat.leb_le. done.
Qed.

(* ===================================================================== *)
(** * Further properties of the title cascade *)
(* ===================================================================== *)

Section CascadeFacts.
Context `{UnicodeData}.

Lemma strategy_1_outcome blocks page_cutoff stats :
  strategy_outcome "font_size" stats
    (extract_title_strategy_1 blocks page_cutoff stats).
Proof.
  unfold extract_title_strategy_1, strategy_outcome.
  destruct (filter _ blocks) as [|first rest]; [by left|].
  match goal with |- context [match ?u with [] => (None, stats) | _ => _ end] =>
    destruct u as [|b0 bs]; [by left|] end.
  match goal with |- context [match ?u with [] => (None, stats) | _ => _ end] =>
    destruct u as [|title_block others]; [by left|] end.
  match goal with |- context [_is_valid_title ?c] =>
    destruct (_is_valid_title c) eqn:Hv; [|by left];
    right; exists c end.
  split; [done|]. split; [apply strip_idem|done].
Qed.

Lemma strategy_2_outcome pdf_reader stats :
  strategy_outcome "metadata" stats
    (extract_title_strategy_2 pdf_reader stats).
Proof.
  unfold extract_title_strategy_2, strategy_outcome.
  destruct (get_title_from_metadata pdf_reader) as [[m|]|] eqn:Hm;
    try by left.
  destruct (nonempty m && _is_valid_title m) eqn:Hv; [|by left].
  apply andb_true_iff in Hv as [_ Hv].
  pose proof (get_title_from_metadata_stripped _ _ Hm) as Hs.
  right. exists m. rewrite Hs. done.
Qed.

Lemma first_meaningful_line_outcome blocks stats :
  strategy_outcome "first_line" stats (first_meaningful_line blocks stats).
Proof.
  induction blocks as [|block rest IH]; simpl; [by left|].
  destruct (length (strip (Reader.text block)) <? 3)%nat; [done|].
  destruct (matches page_numbers _ || search copyright_text _); [done|].
  destruct (_is_valid_title (strip (Reader.text block))) eqn:Hv;
    simpl; [|done].
  destruct (negb (_is_stop_word_only _)); [|done].
  right. exists (strip (Reader.text block)).
  split; [done|]. split; [apply strip_idem|done].
Qed.

Lemma strategy_3_outcome blocks stats :
  strategy_outcome "first_line" stats (extract_title_strategy_3 blocks stats).
Proof.
  unfold extract_title_strategy_3. destruct blocks; [by left|].
  apply first_meaningful_line_outcome.
Qed.

Lemma valid_candidate_truthy candidate :
  _is_valid_title candidate = true ->
  candidate <> [] /\ truthy (Some (candidate ++ [space; space])) = true.
Proof.
  intros Hv. split.
  - intros ->. discriminate.
  - apply nonempty_app_two.
Qed.

(** The cascade, branch by branch. *)
Lemma cascade_cases blocks pdf_reader filename stats :
  let res := extract_title_with_fallback blocks pdf_reader filename stats in
  (nonempty filename && contains (py "file05") (lower filename) = true
   /\ res = ([], <["strategy"%string := "special_empty"%string]> stats))
  \/ (nonempty filename && contains (py "file05") (lower filename) = false
      /\ ((exists t,
             extract_title_strategy_1 blocks (15 # 100) stats
             = (Some t, <["strategy"%string := "font_size"%string]> stats)
             /\ res = (t, <["strategy"%string := "font_size"%string]> stats))
          \/ (extract_title_strategy_1 blocks (15 # 100) stats = (None, stats)
              /\ ((exists t,
                     extract_title_strategy_2 pdf_reader stats
                     = (Some t, <["strategy"%string := "metadata"%string]> stats)
                     /\ res = (t, <["strategy"%string := "metadata"%string]> stats))
                  \/ (extract_title_strategy_2 pdf_reader stats = (None, stats)
                      /\ ((exists t,
                             extract_title_strategy_3 blocks stats
                             = (Some t,
                                <["strategy"%string := "first_line"%string]> stats)
                             /\ res = (t, <["strategy"%string
                                             := "first_line"%string]> stats))
                          \/ (extract_title_strategy_3 blocks stats
                              = (None, stats)
                              /\ ((nonempty filename = true
                                   /\ res = (filename_title filename,
                                             <["strategy"%string
                                               := "filename"%string]> stats))
                                  \/ (filename = []
                                      /\ res = (py "Untitled Document",
                                                <["strategy"%string
                                                  := "default"%string]>
                                                  stats)))))))))).
Proof.
  intros res. unfold res, extract_title_with_fallback.
  destruct (nonempty filename && contains (py "file05") (lower filename));
    [by left|].
  right. split; [done|].
  destruct (strategy_1_outcome blocks (15 # 100) stats)
    as [E1|(c1 & Hv1 & _ & E1)]; rewrite E1.
  2: { left. eexists. split; [reflexivity|].
       by rewrite (proj2 (valid_candidate_truthy _ Hv1)). }
  right. split; [done|]. cbn [truthy].
  destruct (strategy_2_outcome pdf_reader stats)
    as [E2|(c2 & Hv2 & _ & E2)]; rewrite E2.
  2: { left. eexists. split; [reflexivity|].
       by rewrite (proj2 (valid_candidate_truthy _ Hv2)). }
  right. split; [done|]. cbn [truthy].
  destruct (strategy_3_outcome blocks stats)
    as [E3|(c3 & Hv3 & _ & E3)]; rewrite E3.
  2: { left. eexists. split; [reflexivity|].
       by rewrite (proj2 (valid_candidate_truthy _ Hv3)). }
  right. split; [done|]. cbn [truthy].
  unfold filename_title. destruct filename as [|c filename]; simpl.
  - by right.
  - left. done.
Qed.

End CascadeFacts.

(** X15: the title the cascade returns is the empty string (only for a
    filename containing 'file05'), or 'Untitled Document', or a non-empty
    trimmed text followed by exactly two spaces. *)
Theorem cascade_title_shape `{UnicodeData}
  (blocks : list Block) (pdf_reader : PDFReader) (filename : str)
  (stats : Stats) :
  let t := fst (extract_title_with_fallback blocks pdf_reader filename stats) in
  (t = []
   /\ nonempty filename && contains (py "file05") (lower filename) = true)
  \/ t = py "Untitled Document"
  \/ exists c, c <> [] /\ strip c = c /\ t = c ++ [space; space].
Proof.
  intros t. unfold t.
  assert (Hshape : forall tag res t0 st,
            strategy_outcome tag stats res -> res = (Some t0, st) ->
            exists c, c <> [] /\ strip c = c /\ t0 = c ++ [space; space]).
  { intros tag res t0 st [->|(c & Hv & Hs & ->)]; [discriminate|].
    intros [= <- _]. exists c.
    split; [apply (valid_candidate_truthy _ Hv)|done]. }
  destruct (cascade_cases blocks pdf_reader filename stats)
    as [[Hf ->]|[_ [(t1 & E1 & ->)|[_ [(t2 & E2 & ->)|[_ [(t3 & E3 & ->)|
         [_ [[Hn ->]|[-> ->]]]]]]]]]]; simpl.
  - by left.
  - right. right. eapply Hshape; [apply strategy_1_outcome|exact E1].
  - right. right. eapply Hshape; [apply strategy_2_outcome|exact E2].
  - right. right. eapply Hshape; [apply strategy_3_outcome|exact E3].
  - unfold filename_title. rewrite Hn.
    match goal with |- context [nonempty (strip ?s)] =>
      destruct (nonempty (strip s)) eqn:Hs; [|by right; left];
      right; right; exists (strip s) end.
    split; [|split; [apply strip_idem|done]].
    intros E. rewrite E in Hs. discriminate.
  - right. by left.
Qed.

(** X16: the cascade records exactly one strategy tag, and the tag tells
    which strategy produced the title: strategies are tried in the order
    font size, metadata, first line, filename, default, and the first one
    that yields a title wins; a 'file05' filename pre-empts them all. *)
Theorem cascade_records_winning_strategy `{UnicodeData}
  (blocks : list Block) (pdf_reader : PDFReader) (filename : str)
  (stats : Stats) :
  let res := extract_title_with_fallback blocks pdf_reader filename stats in
  let s1 := fst (extract_title_strategy_1 blocks (15 # 100) stats) in
  let s2 := fst (extract_title_strategy_2 pdf_reader stats) in
  let s3 := fst (extract_title_strategy_3 blocks stats) in
  exists tag,
    snd res = <["strategy"%string := tag]> stats
    /\ ((tag = "special_empty"%string /\ fst res = [])
        \/ (tag = "font_size"%string /\ s1 = Some (fst res))
        \/ (tag = "metadata"%string /\ s1 = None /\ s2 = Some (fst res))
        \/ (tag = "first_line"%string
            /\ s1 = None /\ s2 = None /\ s3 = Some (fst res))
        \/ (tag = "filename"%string
            /\ s1 = None /\ s2 = None /\ s3 = None
            /\ filename <> [] /\ fst res = filename_title filename)
        \/ (tag = "default"%string
            /\ s1 = None /\ s2 = None /\ s3 = None
            /\ filename = [] /\ fst res = py "Untitled Document")).
Proof.
  intros res s1 s2 s3. unfold res, s1, s2, s3.
  destruct (cascade_cases blocks pdf_reader filename stats)
    as [[Hf ->]|[_ [(t1 & E1 & ->)|[E1 [(t2 & E2 & ->)|[E2 [(t3 & E3 & ->)|
         [E3 [[Hn ->]|[-> ->]]]]]]]]]];
    rewrite ?E1, ?E2, ?E3; simpl; eexists; (split; [reflexivity|]).
  - by left.
  - right. by left.
  - right. right. by left.
  - right. right. right. by left.
  - right. right. right. right. left. repeat split; try done.
    intros ->. discriminate.
  - right. right. right. right. right. done.
Qed.

Lemma replace_single c d s :
  replace [c] [d] s = map (fun x => if (c =? x)%N then d else x) s.
Proof.
  unfold replace. induction s as [|x s IH]; [done|].
  cbn [replace_from startswith]. rewrite andb_true_r.
  destruct (c =? x)%N eqn:E; simpl; by rewrite E, IH.
Qed.

Lemma strip_elem x s : x ∈ strip s -> x ∈ s.
Proof.
  unfold strip, rstrip, lstrip. intros Hx.
  destruct (rstrip_by_prefix isspace (lstrip_by isspace s)) as [t Et].
  destruct (lstrip_by_suffix isspace s) as [u Eu].
  rewrite Eu, Et. set_solver.
Qed.

Lemma filename_title_no_separators filename :
  (95%N ∉ filename_title filename) /\ (45%N ∉ filename_title filename).
Proof.
  assert (Hu : (95%N ∉ py "Untitled Document")
               /\ (45%N ∉ py "Untitled Document")).
  { split; intros Hin; apply list_elem_of_In in Hin;
      vm_compute in Hin; intuition discriminate. }
  unfold filename_title. destruct (nonempty filename); [|done].
  match goal with |- context [nonempty (strip ?s)] =>
    destruct (nonempty (strip s)); [|done]; set (stem := s) end.
  assert (Hstem : (95%N ∉ stem) /\ (45%N ∉ stem)).
  { unfold stem. change (py "-") with [45%N]. change (py "_") with [95%N].
    rewrite !replace_single. split; intros Hin.
    - apply list_elem_of_fmap in Hin as (y & Hy & Hin).
      apply list_elem_of_fmap in Hin as (z & -> & _).
      destruct (95 =? z)%N eqn:Ez; [vm_compute in Hy; discriminate|].
      destruct (45 =? z)%N; [vm_compute in Hy; discriminate|].
      subst z. by rewrite N.eqb_refl in Ez.
    - apply list_elem_of_fmap in Hin as (y & Hy & _).
      destruct (45 =? y)%N eqn:Ey; [vm_compute in Hy; discriminate|].
      subst y. by rewrite N.eqb_refl in Ey. }
  split; intros Hin; apply elem_of_app in Hin as [Hin|Hin].
  - by apply strip_elem, Hstem in Hin.
  - apply list_elem_of_In in Hin. vm_compute in Hin. intuition discriminate.
  - by apply strip_elem, Hstem in Hin.
  - apply list_elem_of_In in Hin. vm_compute in Hin. intuition discriminate.
Qed.

(** X17: a title produced by the filename strategy contains neither an
    underscore nor a hyphen: both separators have been turned into
    spaces. *)
Theorem filename_strategy_title_has_no_separators `{UnicodeData}
  (blocks : list Block) (pdf_reader : PDFReader) (filename : str)
  (stats : Stats) :
  snd (extract_title_with_fallback blocks pdf_reader filename stats)
    !! "strategy"%string = Some "filename"%string ->
  (95%N ∉ fst (extract_title_with_fallback blocks pdf_reader filename stats))
  /\ (45%N ∉ fst (extract_title_with_fallback blocks pdf_reader filename
                    stats)).
Proof.
  destruct (cascade_cases blocks pdf_reader filename stats)
    as [[Hf ->]|[_ [(t1 & E1 & ->)|[_ [(t2 & E2 & ->)|[_ [(t3 & E3 & ->)|
         [_ [[Hn ->]|[-> ->]]]]]]]]]]; cbn [fst snd]; unfold Stats in *;
    rewrite lookup_insert_eq; intros Htag; try discriminate Htag.
  apply filename_title_no_separators.
Qed.

Lemma filename_strategy_title_has_no_separators_witness :
  extract_title_with_fallback [] untitled_reader (py "my_report-v2") ∅
  = (py "my report v2  ", {[ "strategy"%string := "filename"%string ]})
  /\ (95%N ∉ fst (extract_title_with_fallback [] untitled_reader
                   (py "my_report-v2") ∅)).
Proof.
  assert (Hrun : extract_title_with_fallback [] untitled_reader
                   (py "my_report-v2") ∅
                 = (py "my report v2  ",
                    {[ "strategy"%string := "filename"%string ]}))
    by (vm_compute; reflexivity).
  split; [exact Hrun|].
  apply (filename_strategy_title_has_no_separators
           [] untitled_reader (py "my_report-v2") ∅).
  rewrite Hrun. apply lookup_singleton_eq.
Defined.

(* ===================================================================== *)
(** * Further properties of the orchestrator *)
(* ===================================================================== *)

Section PipelineFacts.
Context `{UnicodeData}.
Variable detect : list Block -> outcome (list Heading).

Lemma outline_items_raises headings h :
  h ∈ headings -> outline_item h = Raised ->
  outline_items headings = Raised.
Proof.
  induction headings as [|h0 hs IH]; intros Hin Hr.
  - by apply not_elem_of_nil in Hin.
  - simpl. apply elem_of_cons in Hin as [<-|Hin].
    + by rewrite Hr.
    + destruct (outline_item h0); [|done]. by rewrite (IH Hin Hr).
Qed.

Lemma outline_item_raises h :
  fields h !! "level"%string = None \/ fields h !! "page"%string = None ->
  outline_item h = Raised.
Proof.
  unfold outline_item. intros [-> | ->]; [done|].
  destruct (fields h !! "level"%string), (htext h); done.
Qed.

Lemma outline_items_aligned headings items :
  outline_items headings = Ok items ->
  Forall2 (fun h item =>
             htext h = Some (Pipeline.text item)
             /\ fields h !! "level"%string = Some (level item)
             /\ fields h !! "page"%string = Some (Pipeline.page item))
          headings items.
Proof.
  revert items. induction headings as [|h hs IH]; intros items; simpl.
  - intros [= <-]. constructor.
  - destruct (outline_item h) as [it|] eqn:Hit; [|discriminate].
    destruct (outline_items hs) as [its|]; [|discriminate].
    intros [= <-]. constructor; [|by apply IH].
    unfold outline_item in Hit.
    destruct (fields h !! "level"%string), (htext h),
             (fields h !! "page"%string); try discriminate.
    by injection Hit as <-.
Qed.

End PipelineFacts.

(** X18: a filename that contains 'file01' (in any letter case) forces an
    empty outline, whatever the document holds and whatever the detector
    reports. *)
Theorem file01_forces_empty_outline `{UnicodeData}
  (detect : list Block -> outcome (list Heading))
  (stem : str) (opened : outcome PDFReader) :
  contains (py "file01") (lower stem) = true ->
  outline (extract_outline_from_pdf detect stem opened) = [].
Proof.
  intros Hf. unfold extract_outline_from_pdf.
  destruct opened as [pdf_reader|]; [|done].
  unfold get_text_blocks_vectorized.
  destruct (extract_title_with_fallback _ _ _ _) as [t st].
  unfold _should_have_empty_outline.
  destruct (blocks_from 0 (pages pdf_reader)); [done|].
  by rewrite Hf.
Qed.

Lemma file01_forces_empty_outline_witness :
  fixed_detector (snd (get_text_blocks_vectorized (pages plain_reader)))
  = Ok two_headings
  /\ outline (extract_outline_from_pdf fixed_detector (py "File01")
                (Ok plain_reader)) = [].
Proof.
  split; [reflexivity|].
  apply (file01_forces_empty_outline fixed_detector (py "File01")
           (Ok plain_reader)).
  vm_compute. reflexivity.
Defined.

(** X19: the result built after an exception.  When the document cannot be
    loaded, or (with the empty-outline gate not firing) the detector raises
    or some filtered heading lacks its ['level'] or ['page'] entry, the
    result is the failure result: an empty outline and, as title, the bare
    filename stem, or 'Processing Failed' for an empty stem; the title the
    cascade extracted is discarded. *)
Theorem failure_gives_minimal_result `{UnicodeData}
  (detect : list Block -> outcome (list Heading))
  (stem : str) (opened : outcome PDFReader) :
  (opened = Raised
   \/ exists pdf_reader,
        opened = Ok pdf_reader
        /\ _should_have_empty_outline
             (snd (get_text_blocks_vectorized (pages pdf_reader))) stem = false
        /\ (detect (snd (get_text_blocks_vectorized (pages pdf_reader)))
            = Raised
            \/ exists raw_headings h,
                 detect (snd (get_text_blocks_vectorized (pages pdf_reader)))
                 = Ok raw_headings
                 /\ h ∈ filter_heading_candidates raw_headings
                 /\ (fields h !! "level"%string = None
                     \/ fields h !! "page"%string = None))) ->
  extract_outline_from_pdf detect stem opened
  = {| title := if nonempty stem then stem else py "Processing Failed";
       outline := [] |}.
Proof.
  unfold extract_outline_from_pdf.
  intros [->|(pdf_reader & -> & Hgate & Hfail)]; [done|].
  unfold get_text_blocks_vectorized in *. simpl in Hgate, Hfail.
  destruct (extract_title_with_fallback _ _ _ _) as [t st].
  rewrite Hgate.
  destruct Hfail as [->|(raw & h & -> & Hin & Hmiss)]; [done|].
  by rewrite (outline_items_raises _ h Hin (outline_item_raises h Hmiss)).
Qed.

Lemma failure_gives_minimal_result_witness :
  extract_outline_from_pdf fixed_detector (py "broken") Raised
  = {| title := py "broken"; outline := [] |}.
Proof.
  exact (failure_gives_minimal_result fixed_detector (py "broken") Raised
           (or_introl eq_refl)).
Defined.

(** X20: when no exception occurs, the title of the result is the title of
    the cascade on all blocks (whether or not the gate fires), and an
    outline that is built has exactly one entry per filtered heading, in
    the same order, carrying that heading's text, level and page. *)
Theorem result_follows_cascade_and_filter `{UnicodeData}
  (detect : list Block -> outcome (list Heading))
  (stem : str) (pdf_reader : PDFReader) :
  let all_blocks := snd (get_text_blocks_vectorized (pages pdf_reader)) in
  let res := extract_outline_from_pdf detect stem (Ok pdf_reader) in
  let cascade_title :=
    fst (extract_title_with_fallback all_blocks pdf_reader stem ∅) in
  (_should_have_empty_outline all_blocks stem = true ->
   res = {| title := cascade_title; outline := [] |})
  /\ (forall raw_headings items,
        _should_have_empty_outline all_blocks stem = false ->
        detect all_blocks = Ok raw_headings ->
        outline_items (filter_heading_candidates raw_headings) = Ok items ->
        res = {| title := cascade_title; outline := items |}
        /\ Forall2 (fun h item =>
                      htext h = Some (Pipeline.text item)
                      /\ fields h !! "level"%string = Some (level item)
                      /\ fields h !! "page"%string
                         = Some (Pipeline.page item))
                   (filter_heading_candidates raw_headings) items).
Proof.
  intros all_blocks res cascade_title.
  unfold res, cascade_title, all_blocks, extract_outline_from_pdf,
    get_text_blocks_vectorized. simpl.
  destruct (extract_title_with_fallback _ _ _ _) as [t st]. simpl.
  split.
  - by intros ->.
  - intros raw items -> -> Hitems. rewrite Hitems.
    split; [done|]. by apply outline_items_aligned.
Qed.

Lemma result_follows_cascade_and_filter_witness :
  extract_outline_from_pdf fixed_detector (py "notes") (Ok plain_reader)
  = {| title := py "Quarterly results  ";
       outline := [ {| level := PInt 1; Pipeline.text := py "Overview ";
                       Pipeline.page := PInt 0 |} ] |}.
Proof.
  destruct (result_follows_cascade_and_filter fixed_detector (py "notes")
              plain_reader) as [_ Hok].
  destruct (Hok two_headings
              [ {| level := PInt 1; Pipeline.text := py "Overview ";
                   Pipeline.page := PInt 0 |} ]
              ltac:(vm_compute; reflexivity) eq_refl
              ltac:(vm_compute; reflexivity)) as [Hres _].
  rewrite Hres. vm_compute. reflexivity.
Defined.

(* ===================================================================== *)
(** * Properties of the batch driver *)
(* ===================================================================== *)

Section BatchFacts.
Context `{UnicodeData}.
Variable detect : list Block -> outcome (list Heading).
Variable path : Type.
Variable stem_of : path -> str.
Variable open_pdf : path -> outcome PDFReader.
Variable schema : option (Result -> bool).
Variable write_json : path -> Result -> bool.

Lemma process_files_counts json_path pdf_files :
  forall stats written,
    let res := process_files detect path stem_of open_pdf schema write_json
      json_path pdf_files stats written in
    processed_files (fst res)
    = (processed_files stats + length pdf_files)%nat
    /\ (successful_extractions (fst res) + length written
        = successful_extractions stats + length (snd res))%nat
    /\ (successful_extractions (fst res) + failed_extractions (fst res)
        = successful_extractions stats + failed_extractions stats
          + length pdf_files)%nat
    /\ (failed_extractions stats <= failed_extractions (fst res))%nat.
Proof.
  induction pdf_files as [|f rest IH]; intros stats written; simpl.
  - lia.
  - unfold process_single_file.
    destruct (negb (validate_output _ _)); simpl.
    + match goal with |- context [process_files detect path stem_of open_pdf schema write_json
      json_path rest ?st ?w] =>
        destruct (IH st w) as (H1 & H2 & H3 & H4) end.
      simpl in *. rewrite length_app in H2. simpl in H2. lia.
    + destruct (write_json (json_path f) _); simpl.
      * match goal with |- context [process_files detect path stem_of open_pdf schema write_json
      json_path rest ?st ?w] =>
          destruct (IH st w) as (H1 & H2 & H3 & H4) end.
        simpl in *. rewrite length_app in H2. simpl in H2. lia.
      * match goal with |- context [process_files detect path stem_of open_pdf schema write_json
      json_path rest ?st ?w] =>
          destruct (IH st w) as (H1 & H2 & H3 & H4) end.
        simpl in *. rewrite length_app in H2. simpl in H2. lia.
Qed.

(** X21: the counters of a directory run.  Every PDF found is counted as
    processed and as exactly one of successful or failed, the number of
    files written is the number of successes, and earlier counts are kept:
    in particular [processed_files = successful + failed] is preserved.
    When the input directory does not exist nothing changes. *)
Theorem process_directory_counters
  (exists_dir : bool) (pdf_files : list path) (json_path : path -> path)
  (stats : BatchStats) :
  let res := process_directory detect path stem_of open_pdf schema write_json
      exists_dir pdf_files json_path stats in
  let n := if exists_dir then length pdf_files else 0%nat in
  processed_files (fst res) = (processed_files stats + n)%nat
  /\ successful_extractions (fst res)
     = (successful_extractions stats + length (snd res))%nat
  /\ (successful_extractions (fst res) + failed_extractions (fst res)
      = successful_extractions stats + failed_extractions stats + n)%nat
  /\ (processed_files stats
      = successful_extractions stats + failed_extractions stats ->
      processed_files (fst res)
      = successful_extractions (fst res) + failed_extractions (fst res))%nat
  /\ (exists_dir = false -> res = (stats, [])).
Proof.
  unfold process_directory. destruct exists_dir; simpl.
  - destruct pdf_files as [|f rest]; [simpl; repeat split; lia || done|].
    destruct (process_files_counts json_path (f :: rest) stats [])
      as (H1 & H2 & H3 & _).
    simpl length in *. repeat split; lia || discriminate.
  - repeat split; lia || done.
Qed.

(** A load failure still yields a result. *)
Lemma process_single_file_unreadable input_path output_path :
  open_pdf input_path = Raised ->
  schema = None ->
  write_json output_path (failure_result (stem_of input_path)) = true ->
  process_single_file detect path stem_of open_pdf schema write_json
    input_path output_path
  = (true, Some (output_path, failure_result (stem_of input_path))).
Proof.
  intros Ho Hs Hw. unfold process_single_file, validate_output.
  rewrite Ho, Hs. simpl. by rewrite Hw.
Qed.

Lemma process_files_unreadable json_path pdf_files :
  (forall f, f ∈ pdf_files -> open_pdf f = Raised) ->
  schema = None ->
  (forall f r, write_json f r = true) ->
  forall stats written,
    process_files detect path stem_of open_pdf schema write_json
      json_path pdf_files stats written
    = ({| processed_files := processed_files stats + length pdf_files;
          successful_extractions :=
            successful_extractions stats + length pdf_files;
          failed_extractions := failed_extractions stats |},
       written ++ map (fun f => (json_path f, failure_result (stem_of f)))
                      pdf_files).
Proof.
  intros Hopen Hs Hw.
  induction pdf_files as [|f rest IH]; intros stats written.
  - simpl. rewrite app_nil_r, !Nat.add_0_r. by destruct stats.
  - cbn [process_files].
    rewrite (process_single_file_unreadable f (json_path f));
      [|apply Hopen, list_elem_of_here|done|apply Hw].
    rewrite IH by (intros f0 Hf0; by apply Hopen, list_elem_of_further).
    simpl. rewrite <- app_assoc. simpl. f_equal. f_equal; lia.
Qed.

(** X22: a document that cannot be loaded is not counted as failed.  With
    no schema loaded and the output writable, a directory in which no PDF
    can be opened is processed with every file counted as successful: for
    each file the failure result (stem as title, empty outline) is written,
    the failure counter stays where it was, and the exit code of a fresh
    run is 0. *)
Theorem unreadable_documents_count_as_successful
  (pdf_files : list path) (json_path : path -> path) (stats : BatchStats) :
  (forall f, f ∈ pdf_files -> open_pdf f = Raised) ->
  schema = None ->
  (forall f r, write_json f r = true) ->
  let res := process_directory detect path stem_of open_pdf schema write_json
      true pdf_files json_path stats in
  failed_extractions (fst res) = failed_extractions stats
  /\ successful_extractions (fst res)
     = (successful_extractions stats + length pdf_files)%nat
  /\ snd res = map (fun f => (json_path f, failure_result (stem_of f)))
                   pdf_files
  /\ (failed_extractions stats = 0%nat -> exit_code (fst res) = 0).
Proof.
  intros Hopen Hs Hw. unfold process_directory. simpl.
  destruct pdf_files as [|f rest].
  - simpl. repeat split; try lia.
    intros E. unfold exit_code. by rewrite E.
  - rewrite (process_files_unreadable json_path (f :: rest) Hopen Hs Hw).
    simpl. repeat split.
    intros E. unfold exit_code. simpl. by rewrite E.
Qed.

End BatchFacts.

Lemma unreadable_documents_count_as_successful_witness :
  fst (process_directory fixed_detector nat numbered_stem unreadable None
         always_written true [1; 2; 3]%nat S zero_stats)
  = {| processed_files := 3; successful_extractions := 3;
       failed_extractions := 0 |}
  /\ exit_code (fst (process_directory fixed_detector nat numbered_stem
                       unreadable None always_written true [1; 2; 3]%nat S
                       zero_stats)) = 0.
Proof.
  split; [vm_compute; reflexivity|].
  apply (unreadable_documents_count_as_successful fixed_detector nat
           numbered_stem unreadable None always_written [1; 2; 3]%nat S
           zero_stats); reflexivity.
Defined.

(* ===================================================================== *)
(** * Properties of [extract_numbers_from_text] *)
(* ===================================================================== *)

Lemma startswith_prefix p t : startswith p (p ++ t) = true.
Proof. induction p as [|a p IH]; simpl; [done|]. by rewrite N.eqb_refl. Qed.

Lemma contains_startswith p s : startswith p s = true -> contains p s = true.
Proof. intros Hs. destruct s; simpl; by rewrite Hs. Qed.

Lemma contains_infix pre item post :
  contains item (pre ++ item ++ post) = true.
Proof.
  induction pre as [|a pre IH].
  - exact (contains_startswith _ _ (startswith_prefix item post)).
  - cbn [app contains]. rewrite IH. apply orb_true_r.
Qed.

Section FindallFacts.
Context `{UnicodeData}.

Lemma findall_from_items r s :
  forall skip prev item,
    item ∈ findall_from r skip prev s ->
    item <> [] /\ exists pre post, s = pre ++ item ++ post.
Proof.
  induction s as [|x s IH]; intros skip prev item.
  - intros Hin. by apply not_elem_of_nil in Hin.
  - assert (Hlater : forall k p,
      item ∈ findall_from r k p s ->
      item <> [] /\ exists pre post, x :: s = pre ++ item ++ post).
    { intros k p Hin. destruct (IH k p item Hin) as (Hne & pre & post & E).
      split; [done|]. exists (x :: pre), post. by rewrite E. }
    cbn [findall_from]. destruct skip as [|k]; [|apply Hlater].
    match goal with |- context [match_at ?a ?b] =>
      destruct (match_at a b) as [c|] end; [|apply Hlater].
    destruct (length (x :: s) - length (ahead c))%nat as [|n] eqn:En;
      [apply Hlater|].
    intros Hin. apply elem_of_cons in Hin as [->|Hin]; [|by eapply Hlater].
    split; [done|].
    exists [], (drop (S n) (x :: s)). simpl. by rewrite take_drop.
Qed.

Lemma findall_class p s prev :
  findall_from (Cls p) 0 prev s = map (fun c => [c]) (List.filter p s).
Proof.
  revert prev. induction s as [|x s IH]; intros prev; [done|].
  cbn [findall_from List.filter]. unfold match_at. cbn [run ahead snd].
  destruct (p x) eqn:Hp.
  - cbn [head ahead snd].
    replace (length (x :: s) - length s)%nat with 1%nat by (simpl; lia).
    simpl. by rewrite IH.
  - cbn [head]. apply IH.
Qed.

End FindallFacts.

(** X23: every item [extract_numbers_from_text] returns is a non-empty
    substring of the text, and the list ends with one single-character item
    for each ASCII letter of the text, in text order (so a Roman-numeral
    letter is reported both inside its run and on its own). *)
Theorem extract_numbers_items `{UnicodeData} (text : str) :
  (forall item,
     item ∈ extract_numbers_from_text text ->
     item <> [] /\ contains item text = true)
  /\ exists others,
       extract_numbers_from_text text
       = others ++ map (fun c => [c])
                       (List.filter
                          (fun c => ascii_lower c || ascii_upper c) text).
Proof.
  unfold extract_numbers_from_text, number_patterns. split.
  - intros item Hin. apply list_elem_of_In, in_flat_map in Hin
      as (pattern & _ & Hin).
    apply list_elem_of_In, findall_from_items in Hin
      as (Hne & pre & post & ->).
    split; [done|apply contains_infix].
  - cbn [flat_map]. unfold findall at 4. rewrite findall_class.
    rewrite app_nil_r, !app_assoc. by eexists.
Qed.

Lemma extract_numbers_items_witness :
  extract_numbers_from_text (py "IV 2.1 a")
  = map py ["2"; "1"; "2.1"; "IV"; "I"; "V"; "a"]%string
  /\ contains (py "2.1") (py "IV 2.1 a") = true.
Proof.
  assert (Hrun : extract_numbers_from_text (py "IV 2.1 a")
                 = map py ["2"; "1"; "2.1"; "IV"; "I"; "V"; "a"]%string)
    by (vm_compute; reflexivity).
  split; [exact Hrun|].
  apply (proj1 (extract_numbers_items (py "IV 2.1 a")) (py "2.1")).
  rewrite Hrun. vm_compute. do 2 apply list_elem_of_further.
  apply list_elem_of_here.
Defined.

(* ===================================================================== *)
(** * Instances of the quantified properties *)
(* ===================================================================== *)

Lemma vectorized_blocks_page_order_witness :
  exists b k,
    b ∈ snd (get_text_blocks_vectorized (pages form_reader))
    /\ Reader.page b = Some k /\ 0 <= k < 1.
Proof.
  destruct (vectorized_blocks_page_order (pages form_reader))
    as (Hrange & _ & _).
  assert (Hne : exists b,
            b ∈ snd (get_text_blocks_vectorized (pages form_reader)))
    by (eexists; vm_compute; apply list_elem_of_here).
  destruct Hne as [b Hb]. destruct (Hrange b Hb) as (k & Hk & Hr).
  exists b, k. split; [exact Hb|]. split; [exact Hk|exact Hr].
Defined.

Lemma clean_heading_text_normal_form_witness :
  strip (py "   ") = [] /\ clean_heading_text (py "   ") = [].
Proof.
  assert (Hblank : strip (py "   ") = []) by reflexivity.
  split; [exact Hblank|].
  exact (proj2 (proj2 (proj2 (proj2
           (clean_heading_text_normal_form (py "   "))))) Hblank).
Defined.

Lemma process_directory_counters_witness :
  process_directory fixed_detector nat numbered_stem unreadable None
    always_written false [1; 2]%nat S zero_stats
  = (zero_stats, []).
Proof.
  exact (proj2 (proj2 (proj2 (proj2
           (process_directory_counters fixed_detector nat numbered_stem
              unreadable None always_written false [1; 2]%nat S
              zero_stats)))) eq_refl).
Defined.

(* ===================================================================== *)
(** * Span order and the first-line strategy *)
(* ===================================================================== *)

Lemma line_texts ph pw (line : list RawSpan) :
  map Reader.text (omap (block_of_span ph pw) line)
  = List.filter nonempty (map span_trimmed line).
Proof.
  induction line as [|span line IH]; [done|].
  cbn [omap list_omap map List.filter]. unfold block_of_span at 1.
  fold (span_trimmed span).
  destruct (nonempty (span_trimmed span)); simpl; by rewrite IH.
Qed.

Lemma lines_texts ph pw (ls : list (list RawSpan)) :
  map Reader.text (flat_map (omap (block_of_span ph pw)) ls)
  = List.filter nonempty (map span_trimmed (concat ls)).
Proof.
  induction ls as [|line ls IH]; [done|].
  cbn [flat_map concat]. rewrite !map_app, List.filter_app, line_texts.
  by rewrite IH.
Qed.

(** X24: the blocks extracted from a page are its spans in reading order
    with the blank ones dropped: their texts are the non-empty trimmed span
    texts, in the same order; blocks without lines contribute nothing. *)
Theorem extracted_texts_are_nonblank_spans (p : Page) :
  map Reader.text (extract_blocks_from_page p)
  = List.filter nonempty (map span_trimmed (all_spans p)).
Proof.
  unfold extract_blocks_from_page, all_spans.
  induction (dict_blocks p) as [|block blocks IH]; [done|].
  cbn [flat_map]. rewrite !map_app, List.filter_app, IH. f_equal.
  destruct (lines block); [apply lines_texts|done].
Qed.

Section FirstLineFacts.
Context `{UnicodeData}.

Lemma insert_by_perm {A K} (ltb : K -> K -> bool) (key : A -> K) x l :
  insert_by ltb key x l ≡ₚ x :: l.
Proof.
  induction l as [|y l IH]; simpl; [done|].
  destruct (ltb (key y) (key x)); [|done].
  rewrite IH. apply Permutation_swap.
Qed.

Lemma sorted_perm {A K} (ltb : K -> K -> bool) (key : A -> K) l :
  sorted ltb key l ≡ₚ l.
Proof.
  induction l as [|x l IH]; simpl; [done|].
  rewrite insert_by_perm. by rewrite IH.
Qed.

Lemma first_meaningful_line_source blocks stats stats' t :
  first_meaningful_line blocks stats = (Some t, stats') ->
  exists block,
    block ∈ blocks
    /\ t = strip (Reader.text block) ++ [space; space]
    /\ (3 <= length (strip (Reader.text block)))%nat
    /\ matches page_numbers (strip (Reader.text block)) = false
    /\ search copyright_text (strip (Reader.text block)) = false
    /\ _is_valid_title (strip (Reader.text block)) = true
    /\ _is_stop_word_only (strip (Reader.text block)) = false.
Proof.
  induction blocks as [|block rest IH]; simpl; [discriminate|].
  assert (Hnext : first_meaningful_line rest stats = (Some t, stats') ->
    exists b, b ∈ block :: rest
      /\ t = strip (Reader.text b) ++ [space; space]
      /\ (3 <= length (strip (Reader.text b)))%nat
      /\ matches page_numbers (strip (Reader.text b)) = false
      /\ search copyright_text (strip (Reader.text b)) = false
      /\ _is_valid_title (strip (Reader.text b)) = true
      /\ _is_stop_word_only (strip (Reader.text b)) = false).
  { intros Hr. destruct (IH Hr) as (b & Hb & Hrest).
    exists b. split; [by apply list_elem_of_further|done]. }
  destruct (Nat.ltb_spec (length (strip (Reader.text block))) 3); [done|].
  destruct (matches page_numbers _ || search copyright_text _) eqn:Hskip;
    [done|].
  apply orb_false_iff in Hskip as [Hpn Hcr].
  destruct (_is_valid_title (strip (Reader.text block))) eqn:Hv;
    simpl; [|done].
  destruct (_is_stop_word_only _) eqn:Hsw; simpl; [done|].
  intros [= <- _]. exists block. split; [apply list_elem_of_here|done].
Qed.

End FirstLineFacts.

(** X25: a title found by strategy 3 is the trimmed text of one of the
    given spans followed by two spaces; that text has at least three
    characters, is neither a page number nor a copyright line, passes the
    validity check and does not consist of stop words only. *)
Theorem first_line_title_source `{UnicodeData}
  (blocks : list Block) (stats stats' : Stats) (t : str) :
  extract_title_strategy_3 blocks stats = (Some t, stats') ->
  exists block,
    block ∈ blocks
    /\ t = strip (Reader.text block) ++ [space; space]
    /\ (3 <= length (strip (Reader.text block)))%nat
    /\ matches page_numbers (strip (Reader.text block)) = false
    /\ search copyright_text (strip (Reader.text block)) = false
    /\ _is_valid_title (strip (Reader.text block)) = true
    /\ _is_stop_word_only (strip (Reader.text block)) = false.
Proof.
  unfold extract_title_strategy_3. destruct blocks as [|b bs]; [discriminate|].
  intros Hl. apply first_meaningful_line_source in Hl as (block & Hin & Hrest).
  exists block. split; [|done].
  apply elem_of_sublist with (l2 := sorted page_y_ltb
           (fun x => (page_or_0 x, top x)) (b :: bs)) in Hin;
    [|apply sublist_take].
  by rewrite sorted_perm in Hin.
Qed.

Lemma first_line_title_source_witness :
  extract_title_strategy_3
    (snd (get_text_blocks_vectorized (pages plain_reader))) ∅
  = (Some (py "Quarterly results  "),
     {[ "strategy"%string := "first_line"%string ]})
  /\ exists block,
       block ∈ snd (get_text_blocks_vectorized (pages plain_reader))
       /\ py "Quarterly results  "
          = strip (Reader.text block) ++ [space; space].
Proof.
  assert (Hrun : extract_title_strategy_3
                   (snd (get_text_blocks_vectorized (pages plain_reader))) ∅
                 = (Some (py "Quarterly results  "),
                    {[ "strategy"%string := "first_line"%string ]}))
    by (vm_compute; reflexivity).
  split; [exact Hrun|].
  destruct (first_line_title_source _ _ _ _ Hrun) as (block & Hin & Ht & _).
  exists block. split; [exact Hin|exact Ht].
Defined.
